(** * Realm model generator of apollo-codegen: embedding and verification

    The development follows the two source files of the Realm target:
    - [realm/language.ts]: the reserved-word policy and [SwiftGenerator]
      (comment, namespace, class and property declarations);
    - the Realm code generation file: [generateSource] and
      [RealmModelGenerator] (file header, per-type driver, field
      declaration).

    Generator methods never inspect the printer state: every branch is taken
    on the schema data alone.  A method is therefore embedded as the sequence
    of printer calls it performs ([Program]); [run] replays such a sequence on
    the text buffer of [CodeGenerator] and yields the generated text. *)

From Stdlib Require Import Strings.String Strings.Ascii Lists.List Bool.Bool
  Arith.Arith Lia.
Import ListNotations.

Local Open Scope list_scope.
Local Open Scope string_scope.

(** ** JavaScript strings

    Strings are sequences of 8-bit code units; the white space of
    [String.prototype.trim] is the ECMAScript WhiteSpace and LineTerminator
    set restricted to that range. *)
Module JS.

Definition newline : ascii := ascii_of_nat 10.
Definition nl : string := String newline "".
Definition dquote : string := String (ascii_of_nat 34) "".

(** Truthiness of a string value: only the empty string is falsy. *)
Definition truthy (s : string) : bool :=
  match s with
  | EmptyString => false
  | String _ _ => true
  end.

(** [s.split(sep)] for a one-character separator. *)
Fixpoint split (sep : ascii) (s : string) : list string :=
  match s with
  | EmptyString => [EmptyString]
  | String c rest =>
      if Ascii.eqb c sep then EmptyString :: split sep rest
      else match split sep rest with
           | [] => [String c EmptyString]
           | line :: lines => String c line :: lines
           end
  end.

Definition isWhiteSpace (c : ascii) : bool :=
  let n := nat_of_ascii c in
  existsb (Nat.eqb n) [9; 10; 11; 12; 13; 32; 160].

Fixpoint trimStart (s : string) : string :=
  match s with
  | EmptyString => EmptyString
  | String c rest => if isWhiteSpace c then trimStart rest else s
  end.

Fixpoint trimEnd (s : string) : string :=
  match s with
  | EmptyString => EmptyString
  | String c rest =>
      match trimEnd rest with
      | EmptyString => if isWhiteSpace c then EmptyString else String c EmptyString
      | kept => String c kept
      end
  end.

(** [s.trim()] *)
Definition trim (s : string) : string := trimEnd (trimStart s).

(** [s.startsWith(prefix)] *)
Definition startsWith (s prefix : string) : bool := String.prefix prefix s.

(** [' '.repeat(n)] *)
Fixpoint repeat (s : string) (n : nat) : string :=
  match n with
  | O => EmptyString
  | S k => s ++ repeat s k
  end.

(** [Object.values(o)] of an object used as an ordered map. *)
Definition Object_values {K V : Type} (o : list (K * V)) : list V :=
  map snd o.

(** [s.replace(/c/g, by_)] for a pattern of one character and a replacement
    without dollar patterns. *)
Fixpoint replaceAll (c : ascii) (by_ : string) (s : string) : string :=
  match s with
  | EmptyString => EmptyString
  | String x rest =>
      if Ascii.eqb x c then by_ ++ replaceAll c by_ rest
      else String x (replaceAll c by_ rest)
  end.

Definition dquoteChar : ascii := ascii_of_nat 34.
Definition backslash : string := String (ascii_of_nat 92) "".

End JS.

(** ** The schema types of the graphql library *)
Module GraphQL.

(** A type reference.  Named types are referred to by name, so that a
    recursive schema is finite data; [GraphQLList] and [GraphQLNonNull] are
    the two wrappers with their [ofType]. *)
Inductive GraphQLType : Type :=
| GraphQLScalarType (name : string)
| GraphQLObjectType (name : string)
| GraphQLInterfaceType (name : string)
| GraphQLUnionType (name : string)
| GraphQLEnumType (name : string)
| GraphQLInputObjectType (name : string)
| GraphQLList (ofType : GraphQLType)
| GraphQLNonNull (ofType : GraphQLType).

Definition GraphQLString : GraphQLType := GraphQLScalarType "String".
Definition GraphQLBoolean : GraphQLType := GraphQLScalarType "Boolean".
Definition GraphQLInt : GraphQLType := GraphQLScalarType "Int".
Definition GraphQLFloat : GraphQLType := GraphQLScalarType "Float".
Definition GraphQLID : GraphQLType := GraphQLScalarType "ID".

(** [type.name] of a named type; the wrappers have no name, and the type
    map holds none. *)
Definition name_of (t : GraphQLType) : string :=
  match t with
  | GraphQLScalarType n | GraphQLObjectType n | GraphQLInterfaceType n
  | GraphQLUnionType n | GraphQLEnumType n | GraphQLInputObjectType n => n
  | GraphQLList _ | GraphQLNonNull _ => EmptyString
  end.

(** [isOutputType]: scalars, objects, interfaces, unions, enums, and
    wrappers of those. *)
Fixpoint isOutputType (t : GraphQLType) : bool :=
  match t with
  | GraphQLScalarType _ | GraphQLObjectType _ | GraphQLInterfaceType _
  | GraphQLUnionType _ | GraphQLEnumType _ => true
  | GraphQLInputObjectType _ => false
  | GraphQLList ofType | GraphQLNonNull ofType => isOutputType ofType
  end.

Record GraphQLField : Type := mkField {
  name : string;
  description : option string;
  type : GraphQLType
}.

(** A value of the schema's type map: the type together with the ordered
    field map [getFields()] answers for it (empty where the type has no
    fields). *)
Record GraphQLNamedType : Type := mkNamedType {
  asType : GraphQLType;
  getFields : list (string * GraphQLField)
}.

Record GraphQLSchema : Type := mkSchema {
  getTypeMap : list (string * GraphQLNamedType)
}.

End GraphQL.

(** ** utilities/printing *)
Module Printing.

(** Modelled from the spec: [join] of utilities/printing is not among the
    sources.  The printed form [<modifiers> keyword name: inherited1,
    inherited2] has the present, non-empty entries separated by the
    separator. *)
Definition join (maybeArray : list (option string)) (separator : string) : string :=
  String.concat separator
    (flat_map (fun x => match x with
                        | Some s => if JS.truthy s then [s] else []
                        | None => []
                        end) maybeArray).

(** Modelled from the spec: [wrap] of utilities/printing is not among the
    sources.  A present, non-empty string is printed between [start] and
    [end_]; an absent or empty one prints nothing. *)
Definition wrap (start maybeString end_ : string) : string :=
  if JS.truthy maybeString then start ++ maybeString ++ end_ else "".

End Printing.

(** ** utilities/CodeGenerator *)
Module CodeGen.

(** Modelled from the spec: the methods of [CodeGenerator]
    (utilities/CodeGenerator, not among the sources) that the generator
    calls, as the calls a method can make.  [IndentIn] and [IndentOut] are
    the two halves of [withIndent] around its closure. *)
Inductive Cmd : Type :=
| Print (maybeString : string)
| PrintNewline
| PrintNewlineIfNeeded
| PrintOnNewline (maybeString : string)
| PushScope (typeName : string)
| PopScope
| IndentIn
| IndentOut.

Definition Program : Type := list Cmd.

(** Modelled from the spec: [withIndent] of utilities/CodeGenerator raises
    the indentation for the closure and lowers it after. *)
Definition withIndent (closure : Program) : Program :=
  ([IndentIn] ++ closure ++ [IndentOut])%list.

(** Modelled from the spec: [withinBlock] of utilities/CodeGenerator prints
    the opening brace on the current line, the closure one level deeper and
    the closing brace on a line of its own. *)
Definition withinBlock (closure : Program) : Program :=
  ([Print " {"] ++ withIndent closure ++ [PrintOnNewline "}"])%list.

(** Modelled from the spec: the class [CodeGenerator] of
    utilities/CodeGenerator is not among the sources.  It is the output
    buffer of the data model: an append-only text accumulator with the
    blank-line state ([startOfIndentLevel]: a block has just been opened,
    so no blank line is wanted), an indentation level raised when a block
    opens and lowered when it closes, two columns per level, and the stack
    of scope frames. *)
Record CodeGenerator : Type := mkGenerator {
  scopeStack : list string;
  indentLevel : nat;
  startOfIndentLevel : bool;
  output : string
}.

(** Modelled from the spec: the indentation of utilities/CodeGenerator, two
    columns per level, as in the output layout of the specification. *)
Definition indentWidth : nat := 2.

(** A new generator: nothing printed, no scope open. *)
Definition fresh : CodeGenerator :=
  {| scopeStack := []; indentLevel := 0; startOfIndentLevel := false; output := "" |}.

Definition set_output (g : CodeGenerator) (o : string) : CodeGenerator :=
  {| scopeStack := scopeStack g; indentLevel := indentLevel g;
     startOfIndentLevel := startOfIndentLevel g; output := o |}.

Definition set_startOfIndentLevel (g : CodeGenerator) (b : bool) : CodeGenerator :=
  {| scopeStack := scopeStack g; indentLevel := indentLevel g;
     startOfIndentLevel := b; output := output g |}.

Definition set_indentLevel (g : CodeGenerator) (n : nat) : CodeGenerator :=
  {| scopeStack := scopeStack g; indentLevel := n;
     startOfIndentLevel := startOfIndentLevel g; output := output g |}.

Definition set_scopeStack (g : CodeGenerator) (s : list string) : CodeGenerator :=
  {| scopeStack := s; indentLevel := indentLevel g;
     startOfIndentLevel := startOfIndentLevel g; output := output g |}.

(** Modelled from the spec: [print] of utilities/CodeGenerator, the raw
    concatenation of a present, non-empty string. *)
Definition print (maybeString : string) (g : CodeGenerator) : CodeGenerator :=
  if JS.truthy maybeString then set_output g (output g ++ maybeString) else g.

(** Modelled from the spec: [printNewline] of utilities/CodeGenerator; an
    empty buffer takes no leading line break. *)
Definition printNewline (g : CodeGenerator) : CodeGenerator :=
  if JS.truthy (output g)
  then set_startOfIndentLevel (print JS.nl g) false
  else g.

(** Modelled from the spec: [printNewlineIfNeeded] of
    utilities/CodeGenerator; the blank line before a declaration, left out
    right after a block opens. *)
Definition printNewlineIfNeeded (g : CodeGenerator) : CodeGenerator :=
  if startOfIndentLevel g then g else printNewline g.

(** Modelled from the spec: [printIndent] of utilities/CodeGenerator. *)
Definition printIndent (g : CodeGenerator) : CodeGenerator :=
  set_output g (output g ++ JS.repeat " " (indentLevel g * indentWidth)).

(** Modelled from the spec: [printOnNewline] of utilities/CodeGenerator; a
    present, non-empty string goes on a line of its own at the current
    indentation. *)
Definition printOnNewline (maybeString : string) (g : CodeGenerator) : CodeGenerator :=
  if JS.truthy maybeString
  then print maybeString (printIndent (printNewline g))
  else g.

(** Modelled from the spec: the effect of one call on the generator;
    [pushScope], [popScope] and the two halves of [withIndent] are those of
    utilities/CodeGenerator. *)
Definition step (g : CodeGenerator) (c : Cmd) : CodeGenerator :=
  match c with
  | Print s => print s g
  | PrintNewline => printNewline g
  | PrintNewlineIfNeeded => printNewlineIfNeeded g
  | PrintOnNewline s => printOnNewline s g
  | PushScope n => set_scopeStack g (n :: scopeStack g)
  | PopScope => set_scopeStack g (tl (scopeStack g))
  | IndentIn => set_startOfIndentLevel (set_indentLevel g (S (indentLevel g))) true
  | IndentOut => set_indentLevel g (pred (indentLevel g))
  end.

(** The calls of a program, made in order. *)
Definition run (p : Program) (g : CodeGenerator) : CodeGenerator :=
  fold_left step p g.

End CodeGen.

(** ** realm/language.ts *)
Module Swift.
Import GraphQL CodeGen.

Record Class : Type := mkClass {
  className : string;
  modifiers : list string;
  superClass : option string;
  adoptedProtocols : option (list string)
}.

Record Property : Type := mkProperty {
  propertyName : string;
  typeName : string;
  type : GraphQLType;
  description : option string
}.

Definition reservedKeywords : list string :=
  ["associatedtype"; "class"; "deinit"; "enum"; "extension";
   "fileprivate"; "func"; "import"; "init"; "inout"; "internal"; "let"; "open";
   "operator"; "private"; "protocol"; "public"; "static"; "struct"; "subscript";
   "typealias"; "var"; "break"; "case"; "continue"; "default"; "defer"; "do";
   "else"; "fallthrough"; "for"; "guard"; "if"; "in"; "repeat"; "return";
   "switch"; "where"; "while"; "as"; "Any"; "catch"; "false"; "is"; "nil";
   "rethrows"; "super"; "self"; "Self"; "throw"; "throws"; "true"; "try";
   "associativity"; "convenience"; "dynamic"; "didSet"; "final"; "get"; "infix";
   "indirect"; "lazy"; "left"; "mutating"; "none"; "nonmutating"; "optional";
   "override"; "postfix"; "precedence"; "prefix"; "Protocol"; "required"; "right";
   "set"; "Type"; "unowned"; "weak"; "willSet"].

(** [set.has(x)] of a [Set] of strings. *)
Definition has (set : list string) (x : string) : bool :=
  existsb (String.eqb x) set.

Definition escapeIdentifierIfNeeded (identifier : string) : string :=
  if has reservedKeywords identifier
  then "`" ++ identifier ++ "`"
  else identifier.

(** [comment(comment?: string)] *)
Definition comment (comment : option string) : Program :=
  match comment with
  | Some text =>
      if JS.truthy text
      then map (fun line => PrintOnNewline ("/// " ++ JS.trim line))
               (JS.split JS.newline text)
      else []
  | None => []
  end.

(** [namespaceDeclaration(namespace, closure)] *)
Definition namespaceDeclaration (namespace : option string) (closure : Program) : Program :=
  match namespace with
  | Some ns =>
      if JS.truthy ns
      then ([PrintNewlineIfNeeded;
             PrintOnNewline ("/// " ++ ns ++ " namespace");
             PrintOnNewline ("public enum " ++ ns);
             PushScope ns]
            ++ withinBlock closure
            ++ [PopScope])%list
      else closure
  | None => closure
  end.

(** [classDeclaration({className, modifiers, superClass, adoptedProtocols = []}, closure)] *)
Definition classDeclaration (c : Class) (closure : Program) : Program :=
  let adopted := match adoptedProtocols c with Some ps => ps | None => [] end in
  ([PrintNewlineIfNeeded;
    PrintOnNewline (Printing.wrap "" (Printing.join (map Some (modifiers c)) " ") " "
                    ++ "class " ++ className c);
    Print (Printing.wrap ": " (Printing.join (superClass c :: map Some adopted) ", ") "");
    PushScope (className c)]
   ++ withinBlock closure
   ++ [PopScope])%list.

Definition primaryKeyOverride : string :=
  "override public static func primaryKey() -> String?".

(** The declaration printed once the wrappers are gone: the part of
    [propertyDeclaration] after its two unwrapping branches. *)
Definition declaration (propertyName typeName : string) (type : GraphQLType)
    (description : option string) (isOptional isList : bool) : Program :=
  (comment description ++
   if isList then
     [PrintOnNewline ("let " ++ propertyName ++ " = List<" ++ typeName ++ ">()")]
   else
     match type with
     | GraphQLObjectType _ =>
         [PrintOnNewline ("dynamic var " ++ propertyName ++ ": " ++ typeName ++ "?")]
     | GraphQLScalarType name =>
         if name =? "Boolean" then
           if isOptional
           then [PrintOnNewline ("let " ++ propertyName ++ " = RealmOptional<Bool>()")]
           else [PrintOnNewline ("dynamic var " ++ propertyName ++ " = false")]
         else if name =? "Int" then
           if isOptional
           then [PrintOnNewline ("let " ++ propertyName ++ " = RealmOptional<Int>()")]
           else [PrintOnNewline ("dynamic var " ++ propertyName ++ " = 0")]
         else if name =? "Float" then
           if isOptional
           then [PrintOnNewline ("let " ++ propertyName ++ " = RealmOptional<Float>()")]
           else [PrintOnNewline ("dynamic var " ++ propertyName ++ ": Float = 0.0")]
         else if name =? "String" then
           if isOptional
           then [PrintOnNewline ("dynamic var " ++ propertyName ++ ": String? = nil")]
           else [PrintOnNewline ("dynamic var " ++ propertyName ++ " = " ++ JS.dquote ++ JS.dquote)]
         else if name =? "ID" then
           (if isOptional
            then [PrintOnNewline ("dynamic var " ++ propertyName ++ ": String? = nil")]
            else [PrintOnNewline ("dynamic var " ++ propertyName ++ " = " ++ JS.dquote ++ JS.dquote)])
           ++ [PrintOnNewline primaryKeyOverride]
           ++ withinBlock
                [PrintOnNewline ("return " ++ JS.dquote ++ propertyName ++ JS.dquote)]
         else
           [PrintOnNewline ("UNCAUGHT SCALAR " ++ name)]
     | GraphQLEnumType _ =>
         [PrintOnNewline ("dynamic var " ++ propertyName ++ ": String? = nil")]
     | _ => []
     end)%list.

(** The recursion of [propertyDeclaration] on the property's type: a
    non-null layer clears [isOptional], a list layer sets [isList], and the
    property passed down carries no description. *)
Fixpoint propertyDeclaration_at (type : GraphQLType) (propertyName typeName : string)
    (description : option string) (isOptional isList : bool) : Program :=
  match type with
  | GraphQLNonNull ofType =>
      propertyDeclaration_at ofType propertyName typeName None false isList
  | GraphQLList ofType =>
      propertyDeclaration_at ofType propertyName typeName None isOptional true
  | _ => declaration propertyName typeName type description isOptional isList
  end.

(** [propertyDeclaration(property, isOptional = true, isList = false)] *)
Definition propertyDeclaration (property : Property) (isOptional isList : bool) : Program :=
  propertyDeclaration_at (type property) (propertyName property) (typeName property)
    (description property) isOptional isList.

Record Struct : Type := mkStruct {
  structName : string;
  structAdoptedProtocols : option (list string);
  structDescription : option string
}.

Record Protocol : Type := mkProtocol {
  protocolName : string;
  protocolAdoptedProtocols : option (list string)
}.

(** [string.replace(/"/g, '\\"').replace(/\n/g, '\\n')] *)
Definition escapedString (string : String.string) : String.string :=
  JS.replaceAll JS.newline (JS.backslash ++ "n")
    (JS.replaceAll JS.dquoteChar (JS.backslash ++ JS.dquote) string).

Definition multilineString (string : String.string) : Program :=
  [PrintOnNewline (JS.dquote ++ escapedString string ++ JS.dquote)].

(** [deprecationAttributes(isDeprecated, deprecationReason)] *)
Definition deprecationAttributes (isDeprecated : option bool)
    (deprecationReason : option string) : Program :=
  match isDeprecated with
  | Some true =>
      let deprecationReason :=
        match deprecationReason with
        | Some reason => if Nat.ltb 0 (String.length reason) then reason else ""
        | None => ""
        end in
      [PrintOnNewline ("@available(*, deprecated, message: " ++ JS.dquote
                       ++ escapedString deprecationReason ++ JS.dquote ++ ")")]
  | _ => []
  end.

(** [structDeclaration({structName, description, adoptedProtocols = []}, closure)] *)
Definition structDeclaration (s : Struct) (closure : Program) : Program :=
  let adopted := match structAdoptedProtocols s with Some ps => ps | None => [] end in
  ([PrintNewlineIfNeeded]
   ++ comment (structDescription s)
   ++ [PrintOnNewline ("public struct " ++ structName s);
       Print (Printing.wrap ": " (Printing.join (map Some adopted) ", ") "");
       PushScope (structName s)]
   ++ withinBlock closure
   ++ [PopScope])%list.

(** [propertyDeclarations(properties)] *)
Definition propertyDeclarations (properties : option (list Property)) : Program :=
  match properties with
  | None => []
  | Some properties =>
      flat_map (fun property => propertyDeclaration property true false) properties
  end.

(** [protocolDeclaration({protocolName, adoptedProtocols}, closure)]; [join]
    of an absent array is the empty string. *)
Definition protocolDeclaration (p : Protocol) (closure : Program) : Program :=
  let joined := match protocolAdoptedProtocols p with
                | Some ps => Printing.join (map Some ps) ", "
                | None => ""
                end in
  ([PrintNewlineIfNeeded;
    PrintOnNewline ("public protocol " ++ protocolName p);
    Print (Printing.wrap ": " joined "");
    PushScope (protocolName p)]
   ++ withinBlock closure
   ++ [PopScope])%list.

Definition protocolPropertyDeclaration (property : Property) : Program :=
  [PrintOnNewline ("var " ++ propertyName property ++ ": " ++ typeName property
                   ++ " { get }")].

Definition protocolPropertyDeclarations (properties : option (list Property)) : Program :=
  match properties with
  | None => []
  | Some properties => flat_map protocolPropertyDeclaration properties
  end.

End Swift.

(** ** The Realm code generation file *)
Module Realm.
Import GraphQL CodeGen Swift.

Record Options : Type := mkOptions {
  namespace : option string;
  passthroughCustomScalars : option bool;
  customScalarsPrefix : option string
}.

Record CompilerContext : Type := mkContext {
  schema : GraphQLSchema;
  options : Options
}.

Definition fileHeader : Program :=
  [PrintOnNewline "//  This file was automatically generated and should not be edited.";
   PrintNewline;
   PrintOnNewline "import Apollo";
   PrintOnNewline "import Realm";
   PrintOnNewline "import RealmSwift"].

Section Collaborators.

(** [camelCase] of the change-case package and the two type-name methods
    of [Helpers] (./helpers) are used as given. *)
Variable camelCase : string -> string.
Variable rootTypeNameFromGraphQLType : GraphQLType -> string.
Variable typeNameFromGraphQLType : GraphQLType -> string.

Definition generateFieldDeclaration (field : GraphQLField) (classPrefix : string) : Program :=
  ((match GraphQL.description field with
    | Some d => comment (Some d)
    | None => []
    end)
   ++ propertyDeclaration
        {| propertyName := camelCase (GraphQL.name field);
           typeName := rootTypeNameFromGraphQLType (GraphQL.type field);
           Swift.type := GraphQL.type field;
           Swift.description := None |}
        true false)%list.

Definition generateOutputObjectForType (type : GraphQLNamedType) : Program :=
  let classPrefix := "" in
  let className := classPrefix ++ name_of (asType type) in
  classDeclaration
    {| Swift.className := className;
       modifiers := ["public"; "final"];
       superClass := None;
       adoptedProtocols := Some ["Object"] |}
    (flat_map (fun field => generateFieldDeclaration field classPrefix)
              (JS.Object_values (getFields type))).

Definition realmTypeDeclarationType (type : GraphQLNamedType) : Program :=
  match asType type with
  | GraphQLObjectType _ =>
      if isOutputType (asType type) then
        let typeName := name_of (asType type) in
        let prefix := "__" in
        if negb (JS.startsWith typeName prefix)
        then generateOutputObjectForType type
        else []
      else []
  | _ => []
  end.

(** [parameterForFieldName(fieldName, type)], the initializer parameter of
    a field. *)
Definition parameterForFieldName (fieldName : string) (type : GraphQLType) : string :=
  let typeName := typeNameFromGraphQLType type in
  let isOptional := match type with GraphQLNonNull _ => false | _ => true end in
  Printing.join
    [Some (escapeIdentifierIfNeeded fieldName ++ ": " ++ typeName);
     if isOptional then Some " = nil" else None]
    "".

(** The calls [generateSource] makes on its generator. *)
Definition generateSource_program (context : CompilerContext) : Program :=
  (fileHeader
   ++ namespaceDeclaration (namespace (options context))
        (flat_map realmTypeDeclarationType
                  (JS.Object_values (getTypeMap (schema context)))))%list.

(** [generateSource(context)]: the output of a new generator after those
    calls. *)
Definition generateSource (context : CompilerContext) : string :=
  output (run (generateSource_program context) fresh).

(** [parametersForFields(fields)] *)
Definition parametersForFields (fields : list GraphQLField) : Program :=
  [Print "(";
   Print (Printing.join
            (map (fun field =>
                    Some (parameterForFieldName (camelCase (GraphQL.name field))
                            (GraphQL.type field)))
                 fields)
            ", ");
   Print ")"].

(** [generateOutputObjectInitializer(object)] *)
Definition generateOutputObjectInitializer (object : GraphQLNamedType) : Program :=
  let fieldsMap := JS.Object_values (getFields object) in
  ([PrintNewline;
    PrintOnNewline "public init"]
   ++ parametersForFields fieldsMap
   ++ withinBlock
        (map (fun field =>
                let propertyName := camelCase (GraphQL.name field) in
                PrintOnNewline ("self." ++ propertyName ++ " = " ++ propertyName))
             fieldsMap
         ++ [PrintOnNewline "super.init()"]))%list.

End Collaborators.

End Realm.


(** ** The type classifier and observations on programs

    [propertyDeclaration] has no separate classifier: the classification is
    the state of its recursion when the wrappers are gone.  [classify] is that
    recursion, returning what the terminal branch is entered with. *)
Module Classifier.
Import GraphQL CodeGen Swift.

Fixpoint classify (type : GraphQLType) (isOptional isList : bool)
    : GraphQLType * bool * bool :=
  match type with
  | GraphQLNonNull ofType => classify ofType false isList
  | GraphQLList ofType => classify ofType isOptional true
  | _ => (type, isOptional, isList)
  end.

(** The classification of a field's type, from the default arguments
    [isOptional = true], [isList = false]. *)
Definition classifyField (type : GraphQLType) : GraphQLType * bool * bool :=
  classify type true false.

(** The fully unwrapped type. *)
Fixpoint innermost (type : GraphQLType) : GraphQLType :=
  match type with
  | GraphQLNonNull ofType | GraphQLList ofType => innermost ofType
  | _ => type
  end.

(** Some wrapper of the type, at any depth, is a list. *)
Fixpoint wrappedInList (type : GraphQLType) : bool :=
  match type with
  | GraphQLList _ => true
  | GraphQLNonNull ofType => wrappedInList ofType
  | _ => false
  end.

(** Some wrapper of the type, at any depth, is a non-null. *)
Fixpoint wrappedInNonNull (type : GraphQLType) : bool :=
  match type with
  | GraphQLNonNull _ => true
  | GraphQLList ofType => wrappedInNonNull ofType
  | _ => false
  end.

Definition isWrapper (type : GraphQLType) : bool :=
  match type with
  | GraphQLNonNull _ | GraphQLList _ => true
  | _ => false
  end.

Definition isObjectType (type : GraphQLType) : bool :=
  match type with
  | GraphQLObjectType _ => true
  | _ => false
  end.

Definition isIDScalar (type : GraphQLType) : bool :=
  match type with
  | GraphQLScalarType name => name =? "ID"
  | _ => false
  end.

(** The names of the five scalars the [switch] of [propertyDeclaration]
    has a case for. *)
Definition builtInScalarNames : list string :=
  ["Boolean"; "Int"; "Float"; "String"; "ID"].

Definition isPrimaryKeyOverride (c : Cmd) : bool :=
  match c with
  | PrintOnNewline s => s =? primaryKeyOverride
  | _ => false
  end.

(** How many times a program prints the primary-key override line. *)
Definition primaryKeyOverrides (p : Program) : nat :=
  length (filter isPrimaryKeyOverride p).

(** A field whose declaration carries the primary-key override: an ID with
    no list wrapper. *)
Definition isIdentityField (field : GraphQLField) : bool :=
  isIDScalar (innermost (GraphQL.type field))
  && negb (wrappedInList (GraphQL.type field)).

(** The documentation comment [generateFieldDeclaration] prints for a field
    before its declaration. *)
Definition fieldComment (field : GraphQLField) : Program :=
  match GraphQL.description field with
  | Some d => comment (Some d)
  | None => []
  end.

(** The text [fileHeader] leaves in a new generator. *)
Definition fileHeaderText : string :=
  output (run Realm.fileHeader fresh).

End Classifier.

(** ** A sample schema

    The names of the sample are single lower-case words, which [camelCase]
    returns as they are; [asWritten] stands for it there.  [innermostName]
    names a type by its innermost named type. *)
Module Samples.
Import GraphQL CodeGen Swift Realm Classifier.

Definition asWritten (s : string) : string := s.

Definition innermostName (type : GraphQLType) : string :=
  name_of (innermost type).

Definition idField : GraphQLField :=
  mkField "id" None (GraphQLNonNull GraphQLID).

Definition idsField : GraphQLField :=
  mkField "ids" None (GraphQLList GraphQLID).

Definition nameField : GraphQLField :=
  mkField "name" (Some "The full name") GraphQLString.

Definition tagsField : GraphQLField :=
  mkField "tags" None (GraphQLNonNull (GraphQLList (GraphQLNonNull GraphQLString))).

Definition sinceField : GraphQLField :=
  mkField "since" None (GraphQLNonNull (GraphQLScalarType "Date")).

Definition classField : GraphQLField :=
  mkField "class" None GraphQLString.

Definition User : GraphQLNamedType :=
  {| asType := GraphQLObjectType "User";
     getFields := [("id", idField); ("since", sinceField); ("name", nameField);
                   ("tags", tagsField)] |}.

Definition introspectionType : GraphQLNamedType :=
  {| asType := GraphQLObjectType "__Type"; getFields := [("name", nameField)] |}.

Definition userSchema : GraphQLSchema :=
  {| getTypeMap := [("User", User);
                    ("Date", mkNamedType (GraphQLScalarType "Date") []);
                    ("__Type", introspectionType)] |}.

Definition emptySchema : GraphQLSchema := {| getTypeMap := [] |}.

Definition withNamespace (namespace : option string) : Options :=
  {| namespace := namespace; passthroughCustomScalars := None;
     customScalarsPrefix := None |}.

(** A comment text of three lines, the second of them blank. *)
Definition blankLineComment : string := "a" ++ JS.nl ++ JS.nl ++ "b".

Definition friendField : GraphQLField :=
  mkField "friend" None (GraphQLNonNull (GraphQLObjectType "User")).

Definition roleField : GraphQLField :=
  mkField "role" None (GraphQLNonNull (GraphQLEnumType "Role")).

Definition ownerField : GraphQLField :=
  mkField "owner" (Some "Who owns it") (GraphQLNonNull (GraphQLUnionType "Owner")).

Definition ageField : GraphQLField :=
  mkField "age" None (GraphQLNonNull GraphQLInt).

Definition scoreField : GraphQLField :=
  mkField "score" None GraphQLFloat.

Definition datesField : GraphQLField :=
  mkField "dates" None (GraphQLList (GraphQLScalarType "Date")).

Definition nodeField : GraphQLField :=
  mkField "node" None (GraphQLInterfaceType "Node").

(** An object type whose two fields are of a union and of an interface
    type. *)
Definition Org : GraphQLNamedType :=
  {| asType := GraphQLObjectType "Org";
     getFields := [("owner", ownerField); ("node", nodeField)] |}.

Definition carriageReturn : string := String (ascii_of_nat 13) "".

End Samples.

(** ** Observations on strings, programs and generator states *)
Module Observations.
Import GraphQL CodeGen Swift Realm Classifier.

(** The character occurs in the string. *)
Fixpoint containsChar (c : ascii) (s : string) : bool :=
  match s with
  | EmptyString => false
  | String x rest => Ascii.eqb x c || containsChar c rest
  end.

(** How many times the character occurs in the string. *)
Fixpoint countChar (c : ascii) (s : string) : nat :=
  match s with
  | EmptyString => 0
  | String x rest => (if Ascii.eqb x c then 1 else 0) + countChar c rest
  end.

(** The names of the scopes a program pushes, in order. *)
Fixpoint scopesOpened (p : Program) : list string :=
  match p with
  | [] => []
  | PushScope n :: rest => n :: scopesOpened rest
  | _ :: rest => scopesOpened rest
  end.

(** The type gets a class declaration: an object type whose name does not
    start with two underscores. *)
Definition emitsClass (type : GraphQLNamedType) : bool :=
  isObjectType (asType type)
  && negb (JS.startsWith (name_of (asType type)) "__").

(** The namespace option opens a scope when it is present and not empty. *)
Definition namespaceScope (namespace : option string) : list string :=
  match namespace with
  | Some ns => if JS.truthy ns then [ns] else []
  | None => []
  end.

(** Two generator states with the same scope stack and indentation. *)
Definition sameFrame (g g' : CodeGenerator) : Prop :=
  scopeStack g' = scopeStack g /\ indentLevel g' = indentLevel g.

(** A program that leaves the scope stack and the indentation as it found
    them, from every state. *)
Definition balanced (p : Program) : Prop :=
  forall g : CodeGenerator, sameFrame g (run p g).

(** The top wrapper of the type is a non-null. *)
Definition isNonNull (type : GraphQLType) : bool :=
  match type with
  | GraphQLNonNull _ => true
  | _ => false
  end.

(** The calls that only print. *)
Definition printsOnly (c : Cmd) : Prop :=
  match c with
  | Print _ | PrintNewline | PrintNewlineIfNeeded | PrintOnNewline _ => True
  | _ => False
  end.

(** The string begins with the prefix. *)
Fixpoint beginsWith (prefix s : string) {struct prefix} : bool :=
  match prefix with
  | EmptyString => true
  | String a prefix' =>
      match s with
      | EmptyString => false
      | String b s' => Ascii.eqb a b && beginsWith prefix' s'
      end
  end.

(** A call that prints the line of a property declaration: a stored
    property introduced by [let] or by [dynamic var]. *)
Definition isPropertyDeclarationLine (c : Cmd) : bool :=
  match c with
  | PrintOnNewline s => beginsWith "let " s || beginsWith "dynamic var " s
  | _ => false
  end.

(** How many property declarations a program prints. *)
Definition propertyDeclarationLines (p : Program) : nat :=
  List.length (filter isPropertyDeclarationLine p).

(** The kinds of named type [propertyDeclaration] has a declaration for
    outside a list: object types, enums and the five built-in scalars. *)
Definition kindDeclares (type : GraphQLType) : bool :=
  match type with
  | GraphQLObjectType _ | GraphQLEnumType _ => true
  | GraphQLScalarType n => has builtInScalarNames n
  | _ => false
  end.

(** The field type gets a property declaration: some wrapper is a list, or
    the innermost type is of a kind that has one. *)
Definition declaresProperty (type : GraphQLType) : bool :=
  wrappedInList type || kindDeclares (innermost type).

(** The class header lines a program prints, in order. *)
Fixpoint classHeaders (p : Program) : list string :=
  match p with
  | [] => []
  | PrintOnNewline s :: rest =>
      if beginsWith "public final class " s
      then s :: classHeaders rest
      else classHeaders rest
  | _ :: rest => classHeaders rest
  end.

(** The property declarations the class of a type holds. *)
Definition declaredFields (type : GraphQLNamedType) : list GraphQLField :=
  filter (fun field => declaresProperty (GraphQL.type field))
         (JS.Object_values (getFields type)).

End Observations.

Import JS GraphQL Printing CodeGen Swift Realm Classifier Samples.
Import Observations.

(** ** Strings *)

Lemma append_assoc (a b c : string) : (a ++ b) ++ c = a ++ b ++ c.
Proof.
  induction a as [|x a IH]; simpl; [reflexivity | now rewrite IH].
Qed.

Lemma truthy_append_l (a b : string) : truthy a = true -> truthy (a ++ b) = true.
Proof. destruct a; simpl; [discriminate | reflexivity]. Qed.

Example trim_both_ends : trim "  a b  " = "a b".
Proof. reflexivity. Qed.

Example trim_blank : trim (String (ascii_of_nat 9) " ") = "".
Proof. reflexivity. Qed.

Example split_trailing_break : split newline ("a" ++ nl) = ["a"; ""]%list.
Proof. reflexivity. Qed.

Lemma trimStart_head (s : string) (c : ascii) (rest : string) :
  trimStart s = String c rest -> isWhiteSpace c = false.
Proof.
  induction s as [|x s IH]; simpl; [discriminate|].
  destruct (isWhiteSpace x) eqn:Hx; [exact IH|].
  intros E. injection E as -> _. exact Hx.
Qed.

Local Open Scope list_scope.

(** ** The classifier *)

Lemma classify_innermost (t : GraphQLType) :
  forall o l, fst (fst (classify t o l)) = innermost t.
Proof. induction t; intros o l; simpl; auto. Qed.

Lemma classify_isList (t : GraphQLType) :
  forall o l, snd (classify t o l) = wrappedInList t || l.
Proof.
  induction t; intros o l; simpl; auto.
  - rewrite IHt. now rewrite orb_true_r.
Qed.

Lemma classify_isOptional (t : GraphQLType) :
  forall o l, snd (fst (classify t o l)) = negb (wrappedInNonNull t) && o.
Proof.
  induction t; intros o l; simpl; auto.
  - rewrite IHt. now rewrite andb_false_r.
Qed.

Lemma innermost_not_wrapper (t : GraphQLType) : isWrapper (innermost t) = false.
Proof. induction t; simpl; auto. Qed.

(** [propertyDeclaration] prints the terminal declaration of the classified
    type; the description survives only when there was no wrapper. *)
Lemma propertyDeclaration_at_classify (t : GraphQLType) :
  forall pn tn d o l,
    propertyDeclaration_at t pn tn d o l =
    let '(t', o', l') := classify t o l in
    declaration pn tn t' (if isWrapper t then None else d) o' l'.
Proof.
  induction t; intros pn tn d o l; simpl; try reflexivity.
  - rewrite IHt. destruct (classify t o true) as [[t' o'] l'].
    destruct (isWrapper t); reflexivity.
  - rewrite IHt. destruct (classify t false l) as [[t' o'] l'].
    destruct (isWrapper t); reflexivity.
Qed.

Lemma classify_eta (t : GraphQLType) (o l : bool) :
  classify t o l =
  (innermost t, negb (wrappedInNonNull t) && o, wrappedInList t || l).
Proof.
  rewrite <- classify_innermost with (o := o) (l := l).
  rewrite <- classify_isOptional with (o := o) (l := l).
  rewrite <- classify_isList with (o := o) (l := l).
  now destruct (classify t o l) as [[a b] c].
Qed.

(** ** Counting primary-key overrides *)

Lemma primaryKeyOverrides_app (p q : Program) :
  primaryKeyOverrides (p ++ q) = primaryKeyOverrides p + primaryKeyOverrides q.
Proof.
  unfold primaryKeyOverrides. now rewrite filter_app, length_app.
Qed.

Lemma primaryKeyOverrides_flat_map {A : Type} (f : A -> Program) (xs : list A) :
  primaryKeyOverrides (flat_map f xs) =
  list_sum (map (fun x => primaryKeyOverrides (f x)) xs).
Proof.
  induction xs as [|x xs IH]; simpl; [reflexivity|].
  now rewrite primaryKeyOverrides_app, IH.
Qed.

Lemma primaryKeyOverrides_comment (d : option string) :
  primaryKeyOverrides (comment d) = 0.
Proof.
  unfold comment. destruct d as [text|]; [|reflexivity].
  destruct (truthy text); [|reflexivity].
  induction (split newline text) as [|line lines IH]; [reflexivity|].
  exact IH.
Qed.

Lemma primaryKeyOverrides_declaration pn tn t d o l :
  primaryKeyOverrides (declaration pn tn t d o l) =
  if negb l && isIDScalar t then 1 else 0.
Proof.
  unfold declaration.
  rewrite primaryKeyOverrides_app, primaryKeyOverrides_comment.
  destruct l; [reflexivity|]. simpl negb. simpl andb.
  destruct t as [n|n|n|n|n|n|t'|t']; try reflexivity.
  unfold isIDScalar.
  destruct (n =? "Boolean") eqn:Hb.
  { apply String.eqb_eq in Hb; subst n. now destruct o. }
  destruct (n =? "Int") eqn:Hi.
  { apply String.eqb_eq in Hi; subst n. now destruct o. }
  destruct (n =? "Float") eqn:Hf.
  { apply String.eqb_eq in Hf; subst n. now destruct o. }
  destruct (n =? "String") eqn:Hs.
  { apply String.eqb_eq in Hs; subst n. now destruct o. }
  destruct (n =? "ID"); [now destruct o | reflexivity].
Qed.

Lemma primaryKeyOverrides_propertyDeclaration_at t pn tn d o l :
  primaryKeyOverrides (propertyDeclaration_at t pn tn d o l) =
  if negb (wrappedInList t || l) && isIDScalar (innermost t) then 1 else 0.
Proof.
  rewrite propertyDeclaration_at_classify, classify_eta.
  apply primaryKeyOverrides_declaration.
Qed.

(** ** Fields wrapped in a list *)

Lemma wrappedInList_isWrapper t : wrappedInList t = true -> isWrapper t = true.
Proof. destruct t; simpl; auto. Qed.

Lemma propertyDeclaration_at_list t pn tn d o l :
  wrappedInList t = true ->
  propertyDeclaration_at t pn tn d o l =
  [PrintOnNewline ("let " ++ pn ++ " = List<" ++ tn ++ ">()")].
Proof.
  intros H.
  rewrite propertyDeclaration_at_classify, classify_eta, H.
  now rewrite (wrappedInList_isWrapper t H).
Qed.

(** ** The claims on the generator *)

Section Generator.

Variable camelCase : string -> string.
Variable rootTypeNameFromGraphQLType : GraphQLType -> string.

Let fieldDeclaration (field : GraphQLField) : Program :=
  generateFieldDeclaration camelCase rootTypeNameFromGraphQLType field "".

Let outputObject (type : GraphQLNamedType) : Program :=
  generateOutputObjectForType camelCase rootTypeNameFromGraphQLType type.

Lemma generateFieldDeclaration_unfold (field : GraphQLField) :
  fieldDeclaration field =
  fieldComment field ++
  propertyDeclaration_at (GraphQL.type field) (camelCase (GraphQL.name field))
    (rootTypeNameFromGraphQLType (GraphQL.type field)) None true false.
Proof. reflexivity. Qed.

Lemma primaryKeyOverrides_fieldComment (field : GraphQLField) :
  primaryKeyOverrides (fieldComment field) = 0.
Proof.
  unfold fieldComment. destruct (GraphQL.description field); [|reflexivity].
  apply primaryKeyOverrides_comment.
Qed.

Lemma primaryKeyOverrides_field (field : GraphQLField) :
  primaryKeyOverrides (fieldDeclaration field) =
  if isIdentityField field then 1 else 0.
Proof.
  rewrite generateFieldDeclaration_unfold, primaryKeyOverrides_app.
  rewrite primaryKeyOverrides_fieldComment, primaryKeyOverrides_propertyDeclaration_at.
  unfold isIdentityField. rewrite orb_false_r, andb_comm. reflexivity.
Qed.

(** The calls of a class declaration: the header line, the block, and in
    the block the declarations of the fields in the order of the field map. *)
Lemma generateOutputObjectForType_unfold (type : GraphQLNamedType) :
  outputObject type =
  [PrintNewlineIfNeeded;
   PrintOnNewline ("public final class " ++ name_of (asType type));
   Print ": Object";
   PushScope (name_of (asType type));
   Print " {";
   IndentIn]
  ++ flat_map fieldDeclaration (Object_values (getFields type))
  ++ [IndentOut; PrintOnNewline "}"; PopScope].
Proof.
  unfold outputObject, generateOutputObjectForType, classDeclaration.
  unfold withinBlock, withIndent. simpl.
  rewrite <- !app_assoc. reflexivity.
Qed.

(** C1, as amended.  A field whose innermost type is the ID scalar gets the
    primary-key override exactly once when its type has no list wrapper,
    whatever its non-null wrappers, and not at all when some wrapper is a
    list; the class declaration of a type prints the override once for each
    of its fields that is an ID outside any list, and for no other field. *)
Theorem C1_primaryKey_once_outside_lists :
  (forall field : GraphQLField,
      innermost (GraphQL.type field) = GraphQLID ->
      primaryKeyOverrides (fieldDeclaration field) =
      if wrappedInList (GraphQL.type field) then 0 else 1)
  /\
  (forall type : GraphQLNamedType,
      primaryKeyOverrides (outputObject type) =
      length (filter isIdentityField (Object_values (getFields type)))).
Proof.
  split.
  - intros field Hid.
    rewrite primaryKeyOverrides_field. unfold isIdentityField.
    rewrite Hid. simpl. now destruct (wrappedInList (GraphQL.type field)).
  - intros type. rewrite generateOutputObjectForType_unfold.
    rewrite !primaryKeyOverrides_app, primaryKeyOverrides_flat_map.
    match goal with
    | |- ?a + (_ + ?b) = _ => change a with 0; change b with 0
    end.
    rewrite Nat.add_0_l, Nat.add_0_r.
    induction (Object_values (getFields type)) as [|f fs IH]; [reflexivity|].
    simpl. rewrite primaryKeyOverrides_field, IH.
    now destruct (isIdentityField f).
Qed.

(** C2.  A field whose type has a list wrapper at any depth is declared as
    the empty-initialised collection [let <name> = List<TypeName>()],
    whatever the element's kind and whatever flags the call starts from. *)
Theorem C2_list_field_collection_form :
  (forall field : GraphQLField,
      wrappedInList (GraphQL.type field) = true ->
      fieldDeclaration field =
      fieldComment field ++
      [PrintOnNewline ("let " ++ camelCase (GraphQL.name field) ++ " = List<"
                       ++ rootTypeNameFromGraphQLType (GraphQL.type field) ++ ">()")])
  /\
  (forall (property : Property) (isOptional isList : bool),
      wrappedInList (Swift.type property) = true ->
      propertyDeclaration property isOptional isList =
      [PrintOnNewline ("let " ++ propertyName property ++ " = List<"
                       ++ typeName property ++ ">()")]).
Proof.
  split.
  - intros field H. rewrite generateFieldDeclaration_unfold.
    now rewrite propertyDeclaration_at_list.
  - intros property o l H. unfold propertyDeclaration.
    now apply propertyDeclaration_at_list.
Qed.

Lemma In_comment (c : Cmd) (d : option string) :
  In c (comment d) -> exists line, c = PrintOnNewline ("/// " ++ trim line).
Proof.
  unfold comment. destruct d as [text|]; [|intros []].
  destruct (truthy text); [|intros []].
  intros H. apply in_map_iff in H. destruct H as [line [E _]].
  exists line. now symmetry.
Qed.

Lemma In_fieldComment (c : Cmd) (field : GraphQLField) :
  In c (fieldComment field) -> exists line, c = PrintOnNewline ("/// " ++ trim line).
Proof.
  unfold fieldComment. destruct (GraphQL.description field); [|intros []].
  apply In_comment.
Qed.

(** C5.  A field of type [Boolean!] is declared [dynamic var <name> = false]
    and the boxed-optional line is not printed for it; a field of type
    [Boolean] without wrapper is declared
    [let <name> = RealmOptional<Bool>()]. *)
Theorem C5_boolean_field_forms :
  (forall (name : string) (description : option string),
      let field := mkField name description (GraphQLNonNull GraphQLBoolean) in
      fieldDeclaration field =
      fieldComment field ++
      [PrintOnNewline ("dynamic var " ++ camelCase name ++ " = false")]
      /\ ~ In (PrintOnNewline ("let " ++ camelCase name ++ " = RealmOptional<Bool>()"))
              (fieldDeclaration field))
  /\
  (forall (name : string) (description : option string),
      let field := mkField name description GraphQLBoolean in
      fieldDeclaration field =
      fieldComment field ++
      [PrintOnNewline ("let " ++ camelCase name ++ " = RealmOptional<Bool>()")]).
Proof.
  split.
  - intros name description field. split; [reflexivity|].
    rewrite generateFieldDeclaration_unfold. intros H.
    apply in_app_or in H. destruct H as [H|H].
    + apply In_fieldComment in H. destruct H as [line H]. discriminate H.
    + simpl in H. destruct H as [H|[]]. discriminate H.
  - intros name description field. reflexivity.
Qed.

Lemma declaration_uncaught_scalar pn tn n o :
  ~ In n builtInScalarNames ->
  declaration pn tn (GraphQLScalarType n) None o false =
  [PrintOnNewline ("UNCAUGHT SCALAR " ++ n)].
Proof.
  intros H. unfold declaration, builtInScalarNames in *. simpl in *.
  repeat match goal with
         | |- context [String.eqb n ?k] =>
             destruct (String.eqb_spec n k) as [E|_]; [exfalso; apply H; subst n; tauto|]
         end.
  reflexivity.
Qed.

Lemma fieldDeclaration_uncaught_scalar (field : GraphQLField) (n : string) :
  wrappedInList (GraphQL.type field) = false ->
  innermost (GraphQL.type field) = GraphQLScalarType n ->
  ~ In n builtInScalarNames ->
  fieldDeclaration field =
  fieldComment field ++ [PrintOnNewline ("UNCAUGHT SCALAR " ++ n)].
Proof.
  intros Hl Hi Hn.
  rewrite generateFieldDeclaration_unfold, propertyDeclaration_at_classify, classify_eta.
  rewrite Hl, Hi. simpl orb.
  destruct (isWrapper (GraphQL.type field)); now rewrite declaration_uncaught_scalar.
Qed.

(** The calls of the per-type driver over a type map are those of its types,
    in the order of the map. *)
Lemma generateSource_program_unfold (context : CompilerContext) :
  generateSource_program camelCase rootTypeNameFromGraphQLType context =
  fileHeader ++
  namespaceDeclaration (namespace (options context))
    (flat_map (realmTypeDeclarationType camelCase rootTypeNameFromGraphQLType)
              (Object_values (getTypeMap (schema context)))).
Proof. reflexivity. Qed.

(** C7: the code at a reserved field name.  With [camelCase] leaving the
    name [class] as it is, the declaration of a [String] field named [class]
    carries the bare name, although the name is reserved and its escaped
    form is the name between backticks; the initializer parameter of the same
    field, printed by [parameterForFieldName], is escaped. *)
Theorem C7_reserved_name_printed_bare (typeNameFromGraphQLType : GraphQLType -> string) :
  camelCase "class" = "class" ->
  has reservedKeywords (camelCase "class") = true
  /\ escapeIdentifierIfNeeded (camelCase "class") = "`class`"
  /\ fieldDeclaration (mkField "class" None GraphQLString) =
     [PrintOnNewline "dynamic var class: String? = nil"]
  /\ parameterForFieldName typeNameFromGraphQLType (camelCase "class") GraphQLString =
     (("`class`: " ++ typeNameFromGraphQLType GraphQLString) ++ " = nil")%string.
Proof.
  intros H. unfold fieldDeclaration, generateFieldDeclaration, parameterForFieldName.
  simpl. rewrite H. repeat split; reflexivity.
Qed.

Lemma run_app (p q : Program) (g : CodeGenerator) :
  run (p ++ q) g = run q (run p g).
Proof. apply fold_left_app. Qed.

(** C8, as amended.  With an empty type map and the namespace option absent
    or empty, [generateSource] returns exactly the header text: the warning
    line, a blank line and the three imports.  With an empty type map and a
    namespace set, the header is followed by the namespace comment and an
    empty namespace block.  The two other options play no part. *)
Theorem C8_empty_type_map :
  fileHeaderText =
  ("//  This file was automatically generated and should not be edited."
   ++ nl ++ nl ++ "import Apollo" ++ nl ++ "import Realm" ++ nl ++ "import RealmSwift")%string
  /\
  (forall context : CompilerContext,
      getTypeMap (schema context) = [] ->
      namespace (options context) = None \/ namespace (options context) = Some ""%string ->
      generateSource camelCase rootTypeNameFromGraphQLType context = fileHeaderText)
  /\
  (forall (context : CompilerContext) (ns : string),
      getTypeMap (schema context) = [] ->
      namespace (options context) = Some ns ->
      truthy ns = true ->
      generateSource camelCase rootTypeNameFromGraphQLType context =
      (fileHeaderText ++ nl ++ nl ++ "/// " ++ ns ++ " namespace" ++ nl
       ++ "public enum " ++ ns ++ " {" ++ nl ++ "}")%string).
Proof.
  split; [reflexivity|]. split.
  - intros context Hm Hn. unfold generateSource.
    rewrite generateSource_program_unfold, Hm.
    destruct Hn as [Hn|Hn]; rewrite Hn; simpl namespaceDeclaration;
      rewrite app_nil_r; reflexivity.
  - intros context ns Hm Hn Ht. unfold generateSource.
    rewrite generateSource_program_unfold, Hm, Hn, run_app.
    unfold namespaceDeclaration. rewrite Ht.
    destruct ns as [|c ns]; [discriminate Ht|].
    cbn. repeat (rewrite !append_assoc; cbn). reflexivity.
Qed.

End Generator.

(** ** The classifier across the two list shapes *)

(** C3, as amended.  For every type, [[Type!]!] and [[Type]!] classify
    alike: the innermost type of [Type], not optional, in a list; and the
    two shapes print the same declaration.  The flag [isOptional] reached
    under a list tells only whether some wrapper, inside or outside the
    list, is a non-null. *)
Theorem C3_nonnull_list_shapes_classify_alike :
  (forall T : GraphQLType,
      classifyField (GraphQLNonNull (GraphQLList (GraphQLNonNull T))) =
      classifyField (GraphQLNonNull (GraphQLList T))
      /\ classifyField (GraphQLNonNull (GraphQLList T)) = (innermost T, false, true))
  /\
  (forall (T : GraphQLType) (pn tn : string) (d : option string),
      propertyDeclaration (mkProperty pn tn (GraphQLNonNull (GraphQLList (GraphQLNonNull T))) d)
        true false =
      propertyDeclaration (mkProperty pn tn (GraphQLNonNull (GraphQLList T)) d) true false)
  /\
  (forall T : GraphQLType,
      classifyField (GraphQLList T) = (innermost T, negb (wrappedInNonNull T), true)).
Proof.
  split; [|split].
  - intros T. unfold classifyField. simpl. split; [reflexivity|].
    rewrite classify_eta. now rewrite orb_true_r, andb_false_r.
  - intros T pn tn d. reflexivity.
  - intros T. unfold classifyField. simpl.
    rewrite classify_eta. now rewrite orb_true_r, andb_true_r.
Qed.

(** C3 as stated fails: no type separates the two shapes. *)
Lemma C3_counterexample :
  ~ exists T : GraphQLType,
      classifyField (GraphQLNonNull (GraphQLList (GraphQLNonNull T))) <>
      classifyField (GraphQLNonNull (GraphQLList T)).
Proof.
  intros [T H]. apply H. reflexivity.
Qed.

(** ** Comments *)

Lemma indentLevel_printNewline (g : CodeGenerator) :
  indentLevel (printNewline g) = indentLevel g.
Proof.
  unfold printNewline, print. destruct (truthy (output g)); reflexivity.
Qed.

Lemma printOnNewline_nonempty (s : string) (g : CodeGenerator) :
  truthy s = true ->
  truthy (output g) = true ->
  printOnNewline s g =
  {| scopeStack := scopeStack g;
     indentLevel := indentLevel g;
     startOfIndentLevel := false;
     output := output g ++ nl ++ JS.repeat " " (indentLevel g * indentWidth) ++ s |}.
Proof.
  intros Hs Hg. unfold printOnNewline, printNewline, printIndent, print.
  rewrite Hs, Hg. simpl. now rewrite !append_assoc.
Qed.

Lemma run_comment_lines (lines : list string) :
  forall g : CodeGenerator,
    truthy (output g) = true ->
    output (run (map (fun line => PrintOnNewline ("/// " ++ trim line)) lines) g) =
    fold_left (fun text line =>
                 (text ++ nl ++ JS.repeat " " (indentLevel g * indentWidth)
                  ++ "/// " ++ trim line)%string)
              lines (output g).
Proof.
  induction lines as [|line lines IH]; intros g Hg; [reflexivity|].
  cbn [map]. unfold run. cbn [fold_left step].
  rewrite (printOnNewline_nonempty ("/// " ++ trim line) g eq_refl Hg).
  fold (run (map (fun line => PrintOnNewline ("/// " ++ trim line)) lines)).
  rewrite IH; [reflexivity|].
  cbn [output]. now apply truthy_append_l.
Qed.

(** C9, as amended.  A present, non-empty comment text is split at line
    breaks and every line, the blank ones too, is printed trimmed after the
    marker [/// ] on a line of its own: a blank line prints the bare marker.
    After earlier output the printed text is, line after line, a line break,
    the indentation, the marker and the trimmed line.  An absent or empty
    text prints nothing. *)
Theorem C9_comment_prints_every_line :
  (forall text : string,
      truthy text = true ->
      comment (Some text) =
      map (fun line => PrintOnNewline ("/// " ++ trim line)) (split newline text))
  /\
  (forall (line : string) (g : CodeGenerator),
      output (printOnNewline ("/// " ++ trim line) g) =
      (output (printNewline g) ++ JS.repeat " " (indentLevel g * indentWidth)
       ++ "/// " ++ trim line)%string)
  /\
  (forall (text : string) (g : CodeGenerator),
      truthy text = true ->
      truthy (output g) = true ->
      output (run (comment (Some text)) g) =
      fold_left (fun printed line =>
                   (printed ++ nl ++ JS.repeat " " (indentLevel g * indentWidth)
                    ++ "/// " ++ trim line)%string)
                (split newline text) (output g))
  /\ comment None = []
  /\ comment (Some ""%string) = [].
Proof.
  split; [|split; [|split; [|split; reflexivity]]].
  - intros text H. unfold comment. now rewrite H.
  - intros line g. unfold printOnNewline, print, printIndent. simpl.
    rewrite indentLevel_printNewline. apply append_assoc.
  - intros text g Ht Hg. unfold comment. rewrite Ht.
    now apply run_comment_lines.
Qed.

(** C9 as stated fails: the blank second line of a three-line text is empty
    after trimming and is printed all the same. *)
Lemma C9_counterexample :
  ~ (forall text line : string,
        In line (split newline text) ->
        trim line = ""%string ->
        ~ In (PrintOnNewline ("/// " ++ trim line)) (comment (Some text))).
Proof.
  intros H.
  apply (H blankLineComment ""%string); vm_compute; tauto.
Qed.

(** ** Identifier escaping *)

Lemma escaped_not_reserved (s : string) :
  has reservedKeywords ("`" ++ s ++ "`") = false.
Proof. reflexivity. Qed.

(** C10.  Escaping an identifier twice is escaping it once: a name between
    backticks is not a reserved word. *)
Theorem C10_escapeIdentifierIfNeeded_idempotent :
  (forall s : string,
      escapeIdentifierIfNeeded (escapeIdentifierIfNeeded s) = escapeIdentifierIfNeeded s)
  /\
  (forall s : string, has reservedKeywords ("`" ++ s ++ "`") = false).
Proof.
  split; [|exact escaped_not_reserved].
  intros s. unfold escapeIdentifierIfNeeded at 2 3.
  destruct (has reservedKeywords s) eqn:H.
  - unfold escapeIdentifierIfNeeded. now rewrite escaped_not_reserved.
  - unfold escapeIdentifierIfNeeded. now rewrite H.
Qed.

(** ** The claims at the sample schema *)

(** C1 as stated fails: the nullable list of IDs is an ID field in a list,
    and its declaration has no primary-key override. *)
Lemma C1_counterexample :
  ~ (forall (camelCase : string -> string)
            (rootTypeNameFromGraphQLType : GraphQLType -> string)
            (field : GraphQLField),
        innermost (GraphQL.type field) = GraphQLID ->
        primaryKeyOverrides
          (generateFieldDeclaration camelCase rootTypeNameFromGraphQLType field "") = 1).
Proof.
  intros H. specialize (H asWritten innermostName idsField eq_refl).
  vm_compute in H. discriminate H.
Qed.

Lemma C1_witness :
  innermost (GraphQL.type idField) = GraphQLID
  /\ primaryKeyOverrides (generateFieldDeclaration asWritten innermostName idField "") = 1
  /\ primaryKeyOverrides (generateFieldDeclaration asWritten innermostName idsField "") = 0.
Proof.
  split; [reflexivity|]. split.
  - exact (proj1 (C1_primaryKey_once_outside_lists asWritten innermostName)
             idField eq_refl).
  - exact (proj1 (C1_primaryKey_once_outside_lists asWritten innermostName)
             idsField eq_refl).
Defined.

Lemma C2_witness :
  wrappedInList (GraphQL.type tagsField) = true
  /\ generateFieldDeclaration asWritten innermostName tagsField "" =
     [PrintOnNewline "let tags = List<String>()"]
  /\ propertyDeclaration (mkProperty "ids" "ID" (GraphQLList GraphQLID) None) false false =
     [PrintOnNewline "let ids = List<ID>()"].
Proof.
  split; [reflexivity|]. split.
  - exact (proj1 (C2_list_field_collection_form asWritten innermostName)
             tagsField eq_refl).
  - exact (proj2 (C2_list_field_collection_form asWritten innermostName)
             (mkProperty "ids" "ID" (GraphQLList GraphQLID) None) false false eq_refl).
Defined.

Lemma not_built_in_Date : ~ In "Date"%string builtInScalarNames.
Proof.
  intros H. repeat (destruct H as [H|H]; [discriminate H|]). exact H.
Defined.

Lemma C7_witness :
  asWritten "class" = "class"%string
  /\ generateFieldDeclaration asWritten innermostName classField "" =
     [PrintOnNewline "dynamic var class: String? = nil"]
  /\ escapeIdentifierIfNeeded (asWritten "class") = "`class`"%string.
Proof.
  split; [reflexivity|].
  pose proof (C7_reserved_name_printed_bare asWritten innermostName innermostName eq_refl)
    as [_ [He [Hd _]]].
  split; [exact Hd | exact He].
Defined.

(** C8 as stated fails: with a namespace set, an empty type map still gives
    the namespace block after the header. *)
Lemma C8_counterexample :
  ~ (forall (camelCase : string -> string)
            (rootTypeNameFromGraphQLType : GraphQLType -> string)
            (context : CompilerContext),
        getTypeMap (schema context) = [] ->
        generateSource camelCase rootTypeNameFromGraphQLType context = fileHeaderText).
Proof.
  intros H.
  specialize (H asWritten innermostName
                (mkContext emptySchema (withNamespace (Some "API"%string))) eq_refl).
  apply (f_equal String.length) in H. vm_compute in H. discriminate H.
Qed.

Lemma C8_witness :
  generateSource asWritten innermostName (mkContext emptySchema (withNamespace None)) =
  fileHeaderText
  /\ generateSource asWritten innermostName
       (mkContext emptySchema (withNamespace (Some "API"%string))) =
     (fileHeaderText ++ nl ++ nl ++ "/// API namespace" ++ nl
      ++ "public enum API {" ++ nl ++ "}")%string.
Proof.
  split.
  - exact (proj1 (proj2 (C8_empty_type_map asWritten innermostName))
             (mkContext emptySchema (withNamespace None)) eq_refl (or_introl eq_refl)).
  - exact (proj2 (proj2 (C8_empty_type_map asWritten innermostName))
             (mkContext emptySchema (withNamespace (Some "API"%string))) "API"%string
             eq_refl eq_refl eq_refl).
Defined.

Lemma C9_witness :
  truthy blankLineComment = true
  /\ comment (Some blankLineComment) =
     [PrintOnNewline "/// a"; PrintOnNewline "/// "; PrintOnNewline "/// b"]
  /\ output (run (comment (Some blankLineComment)) (run fileHeader fresh)) =
     (fileHeaderText ++ nl ++ "/// a" ++ nl ++ "/// " ++ nl ++ "/// b")%string.
Proof.
  split; [reflexivity|]. split.
  - exact (proj1 C9_comment_prints_every_line blankLineComment eq_refl).
  - exact (proj1 (proj2 (proj2 C9_comment_prints_every_line))
             blankLineComment (run fileHeader fresh) eq_refl eq_refl).
Defined.

(** ** The generated text of the sample schema *)

Example generateSource_userSchema :
  generateSource asWritten innermostName
    (mkContext userSchema (withNamespace (Some "API"%string))) =
  ("//  This file was automatically generated and should not be edited." ++ nl
   ++ nl
   ++ "import Apollo" ++ nl
   ++ "import Realm" ++ nl
   ++ "import RealmSwift" ++ nl
   ++ nl
   ++ "/// API namespace" ++ nl
   ++ "public enum API {" ++ nl
   ++ "  public final class User: Object {" ++ nl
   ++ "    dynamic var id = " ++ dquote ++ dquote ++ nl
   ++ "    override public static func primaryKey() -> String? {" ++ nl
   ++ "      return " ++ dquote ++ "id" ++ dquote ++ nl
   ++ "    }" ++ nl
   ++ "    UNCAUGHT SCALAR Date" ++ nl
   ++ "    /// The full name" ++ nl
   ++ "    dynamic var name: String? = nil" ++ nl
   ++ "    let tags = List<String>()" ++ nl
   ++ "  }" ++ nl
   ++ "}")%string.
Proof. vm_compute. reflexivity. Qed.

(** ** String escaping *)

Local Open Scope string_scope.

Lemma replaceAll_append (c : ascii) (by_ a b : string) :
  replaceAll c by_ (a ++ b) = replaceAll c by_ a ++ replaceAll c by_ b.
Proof.
  induction a as [|x a IH]; simpl; [reflexivity|].
  rewrite IH. destruct (Ascii.eqb x c); simpl; [now rewrite append_assoc | reflexivity].
Qed.

Lemma containsChar_append (c : ascii) (a b : string) :
  containsChar c (a ++ b) = containsChar c a || containsChar c b.
Proof.
  induction a as [|x a IH]; simpl; [reflexivity|].
  now rewrite IH, orb_assoc.
Qed.

Lemma length_append (a b : string) :
  String.length (a ++ b) = String.length a + String.length b.
Proof. induction a as [|x a IH]; simpl; [reflexivity | now rewrite IH]. Qed.

Lemma replaceAll_removes (c : ascii) (by_ s : string) :
  containsChar c by_ = false ->
  containsChar c (replaceAll c by_ s) = false.
Proof.
  intros Hby. induction s as [|x s IH]; simpl; [reflexivity|].
  destruct (Ascii.eqb x c) eqn:E.
  - now rewrite containsChar_append, Hby, IH.
  - simpl. now rewrite E, IH.
Qed.

Lemma escapedString_append (a b : string) :
  escapedString (a ++ b) = escapedString a ++ escapedString b.
Proof. unfold escapedString. now rewrite !replaceAll_append. Qed.

(** The image of one character under [escapedString]. *)
Lemma escapedString_cons (x : ascii) (s : string) :
  escapedString (String x s) =
  (if Ascii.eqb x dquoteChar then backslash ++ dquote
   else if Ascii.eqb x newline then backslash ++ "n"
   else String x "") ++ escapedString s.
Proof.
  change (String x s) with (String x "" ++ s).
  rewrite escapedString_append. f_equal.
  unfold escapedString. simpl.
  destruct (Ascii.eqb x dquoteChar) eqn:Eq; [reflexivity|].
  simpl. destruct (Ascii.eqb x newline); reflexivity.
Qed.

(** X1.  [escapedString] works character by character although it is two
    replacement passes: the second pass leaves what the first inserted, so
    the image of a concatenation is the concatenation of the images, a
    double quote becomes backslash and quote, a line break becomes backslash
    and [n], and any other character is copied. *)
Theorem X1_escapedString_character_wise :
  (forall a b : string, escapedString (a ++ b) = escapedString a ++ escapedString b)
  /\
  (forall (x : ascii) (s : string),
      escapedString (String x s) =
      (if Ascii.eqb x dquoteChar then backslash ++ dquote
       else if Ascii.eqb x newline then backslash ++ "n"
       else String x "") ++ escapedString s).
Proof.
  split; [exact escapedString_append | exact escapedString_cons].
Qed.

Lemma escapedString_no_newline (s : string) :
  containsChar newline (escapedString s) = false.
Proof. unfold escapedString. now apply replaceAll_removes. Qed.

(** X2.  The escaped string holds no line break, whatever the string. *)
Theorem X2_escapedString_no_line_break :
  forall s : string, containsChar newline (escapedString s) = false.
Proof. exact escapedString_no_newline. Qed.

(** X3.  [escapedString] returns its argument unchanged exactly when the
    argument holds neither a double quote nor a line break. *)
Theorem X3_escapedString_unchanged_iff_plain :
  forall s : string,
    (escapedString s =? s) =
    negb (containsChar dquoteChar s) && negb (containsChar newline s).
Proof.
  induction s as [|x s IH]; [reflexivity|].
  rewrite escapedString_cons. simpl containsChar.
  destruct (Ascii.eqb x dquoteChar) eqn:Eq.
  - apply Ascii.eqb_eq in Eq. subst x. reflexivity.
  - destruct (Ascii.eqb x newline) eqn:En.
    + apply Ascii.eqb_eq in En. subst x. cbn. now rewrite andb_false_r.
    + simpl. now rewrite Ascii.eqb_refl, IH.
Qed.

(** X4.  Escaping lengthens a string by one character for each double quote
    and each line break it holds. *)
Theorem X4_escapedString_length :
  forall s : string,
    String.length (escapedString s) =
    String.length s + countChar dquoteChar s + countChar newline s.
Proof.
  induction s as [|x s IH]; [reflexivity|].
  rewrite escapedString_cons, length_append, IH. simpl countChar. simpl String.length.
  destruct (Ascii.eqb x dquoteChar) eqn:Eq.
  - apply Ascii.eqb_eq in Eq. subst x. simpl. lia.
  - destruct (Ascii.eqb x newline); simpl; lia.
Qed.

(** X5.  [escapedString] does not escape the backslash, so it is not
    injective: a line break and the two characters backslash, [n] have the
    same image, and no decoder can tell them apart. *)
Theorem X5_escapedString_not_injective :
  exists a b : string, a <> b /\ escapedString a = escapedString b.
Proof.
  exists nl, (backslash ++ "n"). split; [discriminate | reflexivity].
Qed.

(** ** More on identifier escaping *)

Lemma append_backtick_inj (a b : string) : a ++ "`" = b ++ "`" -> a = b.
Proof.
  revert b. induction a as [|x a IH]; intros [|y b] H; simpl in H.
  - reflexivity.
  - injection H as _ H. destruct b; discriminate H.
  - injection H as _ H. destruct a; discriminate H.
  - injection H as -> H. f_equal. now apply IH.
Qed.

(** X6.  [escapeIdentifierIfNeeded] never returns a reserved word. *)
Theorem X6_escapeIdentifierIfNeeded_never_reserved :
  forall identifier : string,
    has reservedKeywords (escapeIdentifierIfNeeded identifier) = false.
Proof.
  intros s. unfold escapeIdentifierIfNeeded.
  destruct (has reservedKeywords s) eqn:H; [apply escaped_not_reserved | exact H].
Qed.

(** X7.  On identifiers that do not start with a backtick, escaping is
    injective: two such identifiers with the same escaped form are equal. *)
Theorem X7_escapeIdentifierIfNeeded_injective :
  forall a b : string,
    startsWith a "`" = false ->
    startsWith b "`" = false ->
    escapeIdentifierIfNeeded a = escapeIdentifierIfNeeded b ->
    a = b.
Proof.
  intros a b Ha Hb. unfold escapeIdentifierIfNeeded.
  destruct (has reservedKeywords a), (has reservedKeywords b); intros H.
  - simpl in H. injection H as H. now apply append_backtick_inj.
  - subst b. unfold startsWith in Hb. simpl in Hb.
    destruct (a ++ "`"); discriminate Hb.
  - subst a. unfold startsWith in Ha. simpl in Ha.
    destruct (b ++ "`"); discriminate Ha.
  - exact H.
Qed.

Lemma X7_witness :
  startsWith "class" "`" = false
  /\ escapeIdentifierIfNeeded "class" = escapeIdentifierIfNeeded "class"
  /\ "class" = "class".
Proof.
  split; [reflexivity|]. split; [reflexivity|].
  exact (X7_escapeIdentifierIfNeeded_injective "class" "class" eq_refl eq_refl eq_refl).
Defined.

(** ** More on comments *)

Lemma split_no_separator (sep : ascii) (s line : string) :
  In line (split sep s) -> containsChar sep line = false.
Proof.
  revert line. induction s as [|x s IH]; intros line H; simpl in H.
  - destruct H as [<-|[]]. reflexivity.
  - destruct (Ascii.eqb x sep) eqn:E.
    + destruct H as [<-|H]; [reflexivity | now apply IH].
    + destruct (split sep s) as [|l ls] eqn:Es.
      * destruct H as [<-|[]]. simpl. now rewrite E.
      * destruct H as [<-|H].
        -- simpl. rewrite E. apply IH. now left.
        -- apply IH. now right.
Qed.

Lemma split_length (sep : ascii) (s : string) :
  List.length (split sep s) = S (countChar sep s).
Proof.
  induction s as [|x s IH]; simpl; [reflexivity|].
  destruct (Ascii.eqb x sep); simpl; [now rewrite IH|].
  destruct (split sep s) as [|l ls]; simpl in *; [discriminate IH | exact IH].
Qed.

Lemma trimStart_keeps_absent (c : ascii) (s : string) :
  containsChar c s = false -> containsChar c (trimStart s) = false.
Proof.
  induction s as [|x s IH]; simpl; [reflexivity|].
  intros H. apply orb_false_iff in H. destruct H as [Hx Hs].
  destruct (isWhiteSpace x); [now apply IH | simpl; now rewrite Hx, Hs].
Qed.

Lemma trimEnd_keeps_absent (c : ascii) (s : string) :
  containsChar c s = false -> containsChar c (trimEnd s) = false.
Proof.
  induction s as [|x s IH]; simpl; [reflexivity|].
  intros H. apply orb_false_iff in H. destruct H as [Hx Hs].
  specialize (IH Hs).
  destruct (trimEnd s) as [|y r].
  - destruct (isWhiteSpace x); simpl; [reflexivity | now rewrite Hx].
  - simpl in *. now rewrite Hx, IH.
Qed.

Lemma trim_keeps_absent (c : ascii) (s : string) :
  containsChar c s = false -> containsChar c (trim s) = false.
Proof.
  intros H. unfold trim. now apply trimEnd_keeps_absent, trimStart_keeps_absent.
Qed.

(** X8.  Whatever the comment text, every call [comment] makes is a
    [printOnNewline] of a string that starts with the marker [/// ] and holds
    no line feed (U+000A) after it.  Other characters inside a line are
    printed as they are: a carriage return within a line stays in the
    printed string. *)
Theorem X8_comment_marker_and_no_line_feed :
  (forall (text : option string) (c : Cmd),
      In c (comment text) ->
      exists body : string,
        c = PrintOnNewline ("/// " ++ body) /\ containsChar newline body = false)
  /\ comment (Some ("x" ++ carriageReturn ++ "import Evil")) =
     [PrintOnNewline ("/// x" ++ carriageReturn ++ "import Evil")]%list.
Proof.
  split; [|reflexivity].
  intros [text|] c; [|intros []]. unfold comment.
  destruct (truthy text); [|intros []].
  intros H. apply in_map_iff in H. destruct H as [line [<- Hl]].
  exists (trim line). split; [reflexivity|].
  apply trim_keeps_absent. now apply split_no_separator with (s := text).
Qed.

Lemma X8_witness :
  In (PrintOnNewline "/// b") (comment (Some blankLineComment))
  /\ exists body : string,
       PrintOnNewline "/// b" = PrintOnNewline ("/// " ++ body)
       /\ containsChar newline body = false.
Proof.
  assert (H : In (PrintOnNewline "/// b") (comment (Some blankLineComment))).
  { right. right. left. reflexivity. }
  split; [exact H|].
  exact (proj1 X8_comment_marker_and_no_line_feed (Some blankLineComment) _ H).
Defined.

(** X9.  A present, non-empty comment text with [n] line breaks prints
    [n + 1] comment lines. *)
Theorem X9_comment_line_count :
  forall text : string,
    truthy text = true ->
    List.length (comment (Some text)) = S (countChar newline text).
Proof.
  intros text H. unfold comment. rewrite H.
  now rewrite length_map, split_length.
Qed.

Lemma X9_witness :
  truthy blankLineComment = true
  /\ List.length (comment (Some blankLineComment)) = 3.
Proof.
  split; [reflexivity|].
  exact (X9_comment_line_count blankLineComment eq_refl).
Defined.

(** X10.  [deprecationAttributes] makes no call unless [isDeprecated] is
    true; when it is, it makes exactly one [printOnNewline] call, whose
    string holds no line feed (U+000A) whatever the reason, and an absent
    reason prints as the empty reason does.  [multilineString] likewise makes
    one call whose string holds no line feed.  A carriage return in the
    reason is not escaped and stays in the printed string. *)
Theorem X10_deprecation_and_string_calls :
  (forall reason : option string,
      deprecationAttributes None reason = []%list
      /\ deprecationAttributes (Some false) reason = []%list)
  /\
  (forall reason : option string,
      exists line : string,
        deprecationAttributes (Some true) reason = [PrintOnNewline line]%list
        /\ containsChar newline line = false)
  /\ deprecationAttributes (Some true) None = deprecationAttributes (Some true) (Some "")
  /\
  (forall s : string,
      exists line : string,
        multilineString s = [PrintOnNewline line]%list
        /\ containsChar newline line = false)
  /\ deprecationAttributes (Some true) (Some ("old" ++ carriageReturn ++ "gone")) =
     [PrintOnNewline ("@available(*, deprecated, message: " ++ dquote
                      ++ "old" ++ carriageReturn ++ "gone" ++ dquote ++ ")")]%list.
Proof.
  split; [intros reason; split; reflexivity|].
  split; [|split; [reflexivity|split; [|reflexivity]]].
  - intros reason. unfold deprecationAttributes.
    eexists. split; [reflexivity|].
    rewrite !containsChar_append, escapedString_no_newline. reflexivity.
  - intros s. unfold multilineString. eexists. split; [reflexivity|].
    rewrite !containsChar_append, escapedString_no_newline. reflexivity.
Qed.

(** ** The decision table of [propertyDeclaration] *)

Local Open Scope list_scope.

Lemma isWrapper_wrapped (t : GraphQLType) :
  isWrapper t = wrappedInNonNull t || wrappedInList t.
Proof. destruct t; simpl; auto using orb_true_r. Qed.

Lemma propertyDeclaration_classified (p : Property) (o l : bool) :
  propertyDeclaration p o l =
  declaration (propertyName p) (typeName p) (innermost (Swift.type p))
    (if isWrapper (Swift.type p) then None else Swift.description p)
    (negb (wrappedInNonNull (Swift.type p)) && o)
    (wrappedInList (Swift.type p) || l).
Proof.
  unfold propertyDeclaration.
  now rewrite propertyDeclaration_at_classify, classify_eta.
Qed.

(** X11.  What [propertyDeclaration] prints depends on the wrappers of the
    type through three facts only: the innermost type, whether some wrapper
    is a non-null (then the declaration is the non-optional one), and
    whether some wrapper is a list.  Two types that agree on the three print
    the same declaration, in whatever order and number their wrappers
    come. *)
Theorem X11_wrappers_count_by_kind_only :
  forall (t1 t2 : GraphQLType) (pn tn : string) (d : option string) (o l : bool),
    innermost t1 = innermost t2 ->
    wrappedInNonNull t1 = wrappedInNonNull t2 ->
    wrappedInList t1 = wrappedInList t2 ->
    propertyDeclaration (mkProperty pn tn t1 d) o l =
    propertyDeclaration (mkProperty pn tn t2 d) o l.
Proof.
  intros t1 t2 pn tn d o l Hi Hn Hl.
  rewrite !propertyDeclaration_classified. simpl.
  now rewrite !isWrapper_wrapped, Hi, Hn, Hl.
Qed.

Lemma X11_witness :
  propertyDeclaration
    (mkProperty "tags" "String" (GraphQLNonNull (GraphQLList GraphQLString)) None)
    true false =
  propertyDeclaration
    (mkProperty "tags" "String" (GraphQLList (GraphQLNonNull (GraphQLNonNull GraphQLString)))
       None)
    true false.
Proof.
  exact (X11_wrappers_count_by_kind_only
           (GraphQLNonNull (GraphQLList GraphQLString))
           (GraphQLList (GraphQLNonNull (GraphQLNonNull GraphQLString)))
           "tags"%string "String"%string None true false eq_refl eq_refl eq_refl).
Defined.

(** X12.  The description of a property is printed, as a comment before
    the declaration, only when the type of the property has no wrapper: the
    calls on the unwrapped type pass no description on, so a property of a
    non-null or list type prints as it would without description. *)
Theorem X12_description_lost_under_wrappers :
  forall (p : Property) (o l : bool),
    propertyDeclaration p o l =
    (if isWrapper (Swift.type p) then [] else comment (Swift.description p))
    ++ propertyDeclaration
         (mkProperty (propertyName p) (typeName p) (Swift.type p) None) o l.
Proof.
  intros p o l. rewrite !propertyDeclaration_classified. simpl.
  destruct (isWrapper (Swift.type p)); reflexivity.
Qed.

Section GeneratorRows.

Variable camelCase : string -> string.
Variable rootTypeNameFromGraphQLType : GraphQLType -> string.
Variable typeNameFromGraphQLType : GraphQLType -> string.

Let fieldDeclaration (field : GraphQLField) : Program :=
  generateFieldDeclaration camelCase rootTypeNameFromGraphQLType field "".

Let propertyName_of (field : GraphQLField) : string :=
  camelCase (GraphQL.name field).

Let typeName_of (field : GraphQLField) : string :=
  rootTypeNameFromGraphQLType (GraphQL.type field).

Lemma fieldDeclaration_classified (field : GraphQLField) :
  fieldDeclaration field =
  fieldComment field ++
  declaration (propertyName_of field) (typeName_of field)
    (innermost (GraphQL.type field)) None
    (negb (wrappedInNonNull (GraphQL.type field)))
    (wrappedInList (GraphQL.type field)).
Proof.
  unfold fieldDeclaration, generateFieldDeclaration.
  rewrite propertyDeclaration_classified. simpl.
  rewrite andb_true_r, orb_false_r.
  now destruct (isWrapper (GraphQL.type field)).
Qed.

(** X13.  A field whose innermost type is an object type, outside any
    list, is declared [dynamic var <name>: <TypeName>?], optional whether
    the schema marks the field non-null or not. *)
Theorem X13_object_field_always_optional :
  forall (field : GraphQLField) (n : string),
    wrappedInList (GraphQL.type field) = false ->
    innermost (GraphQL.type field) = GraphQLObjectType n ->
    fieldDeclaration field =
    fieldComment field ++
    [PrintOnNewline ("dynamic var " ++ propertyName_of field ++ ": "
                     ++ typeName_of field ++ "?")].
Proof.
  intros field n Hl Hi. now rewrite fieldDeclaration_classified, Hl, Hi.
Qed.

(** X14.  A field whose innermost type is an enum, outside any list, is
    declared as an optional string, [dynamic var <name>: String? = nil],
    whether the field is non-null or not and whatever the enum. *)
Theorem X14_enum_field_optional_string :
  forall (field : GraphQLField) (n : string),
    wrappedInList (GraphQL.type field) = false ->
    innermost (GraphQL.type field) = GraphQLEnumType n ->
    fieldDeclaration field =
    fieldComment field ++
    [PrintOnNewline ("dynamic var " ++ propertyName_of field ++ ": String? = nil")].
Proof.
  intros field n Hl Hi. now rewrite fieldDeclaration_classified, Hl, Hi.
Qed.

(** X15.  A field whose innermost type is an interface, a union or an
    input object, outside any list, gets no declaration at all: only the
    comment of its description, if it has one, is printed. *)
Theorem X15_abstract_field_not_declared :
  forall field : GraphQLField,
    wrappedInList (GraphQL.type field) = false ->
    (exists n, innermost (GraphQL.type field) = GraphQLInterfaceType n
               \/ innermost (GraphQL.type field) = GraphQLUnionType n
               \/ innermost (GraphQL.type field) = GraphQLInputObjectType n) ->
    fieldDeclaration field = fieldComment field.
Proof.
  intros field Hl [n [Hi|[Hi|Hi]]];
    rewrite fieldDeclaration_classified, Hl, Hi; simpl; apply app_nil_r.
Qed.

(** X16.  An [Int] or [Float] field outside any list is a boxed optional,
    [let <name> = RealmOptional<Int>()] or [RealmOptional<Float>], when no
    wrapper is a non-null, and a plain variable with the default [0] or
    [0.0] when one is. *)
Theorem X16_numeric_field_forms :
  forall field : GraphQLField,
    wrappedInList (GraphQL.type field) = false ->
    (innermost (GraphQL.type field) = GraphQLInt ->
     fieldDeclaration field =
     fieldComment field ++
     [PrintOnNewline
        (if wrappedInNonNull (GraphQL.type field)
         then "dynamic var " ++ propertyName_of field ++ " = 0"
         else "let " ++ propertyName_of field ++ " = RealmOptional<Int>()")%string])
    /\
    (innermost (GraphQL.type field) = GraphQLFloat ->
     fieldDeclaration field =
     fieldComment field ++
     [PrintOnNewline
        (if wrappedInNonNull (GraphQL.type field)
         then "dynamic var " ++ propertyName_of field ++ ": Float = 0.0"
         else "let " ++ propertyName_of field ++ " = RealmOptional<Float>()")%string]).
Proof.
  intros field Hl. split; intros Hi;
    rewrite fieldDeclaration_classified, Hl, Hi;
    now destruct (wrappedInNonNull (GraphQL.type field)).
Qed.

(** X17.  A [String] field outside any list is [dynamic var <name>: String?
    = nil] when no wrapper is a non-null and [dynamic var <name> = ""], the
    empty string literal, when one is; no primary-key override comes with
    it. *)
Theorem X17_string_field_forms :
  forall field : GraphQLField,
    wrappedInList (GraphQL.type field) = false ->
    innermost (GraphQL.type field) = GraphQLString ->
    fieldDeclaration field =
    fieldComment field ++
    [PrintOnNewline
       (if wrappedInNonNull (GraphQL.type field)
        then "dynamic var " ++ propertyName_of field ++ " = " ++ dquote ++ dquote
        else "dynamic var " ++ propertyName_of field ++ ": String? = nil")%string].
Proof.
  intros field Hl Hi. rewrite fieldDeclaration_classified, Hl, Hi.
  now destruct (wrappedInNonNull (GraphQL.type field)).
Qed.

(** X18.  An [ID] field outside any list prints the declaration of a
    [String] field of the same nullability and then the primary-key override
    as a block of its own, whose one line returns the name of the property
    between double quotes; the block is printed with [withinBlock] and opens
    no scope. *)
Theorem X18_id_field_block :
  forall field : GraphQLField,
    wrappedInList (GraphQL.type field) = false ->
    innermost (GraphQL.type field) = GraphQLID ->
    fieldDeclaration field =
    fieldComment field ++
    [PrintOnNewline
       (if wrappedInNonNull (GraphQL.type field)
        then "dynamic var " ++ propertyName_of field ++ " = " ++ dquote ++ dquote
        else "dynamic var " ++ propertyName_of field ++ ": String? = nil")%string;
     PrintOnNewline "override public static func primaryKey() -> String?";
     Print " {";
     IndentIn;
     PrintOnNewline ("return " ++ dquote ++ propertyName_of field ++ dquote);
     IndentOut;
     PrintOnNewline "}"].
Proof.
  intros field Hl Hi. rewrite fieldDeclaration_classified, Hl, Hi.
  now destruct (wrappedInNonNull (GraphQL.type field)).
Qed.

(** ** Scopes and indentation *)

Lemma sameFrame_refl (g : CodeGenerator) : sameFrame g g.
Proof. split; reflexivity. Qed.

Lemma sameFrame_trans (g1 g2 g3 : CodeGenerator) :
  sameFrame g1 g2 -> sameFrame g2 g3 -> sameFrame g1 g3.
Proof. intros [A B] [C D]. split; congruence. Qed.

Lemma sameFrame_print (s : string) (g : CodeGenerator) : sameFrame g (print s g).
Proof. unfold print. destruct (truthy s); split; reflexivity. Qed.

Lemma sameFrame_printNewline (g : CodeGenerator) : sameFrame g (printNewline g).
Proof.
  unfold printNewline, print. destruct (truthy (output g)); split; reflexivity.
Qed.

Lemma sameFrame_printOnNewline (s : string) (g : CodeGenerator) :
  sameFrame g (printOnNewline s g).
Proof.
  unfold printOnNewline. destruct (truthy s); [|apply sameFrame_refl].
  eapply sameFrame_trans; [apply sameFrame_printNewline|].
  eapply sameFrame_trans; [|apply sameFrame_print].
  split; reflexivity.
Qed.

Lemma balanced_nil : balanced [].
Proof. intros g. apply sameFrame_refl. Qed.

Lemma balanced_app (p q : Program) : balanced p -> balanced q -> balanced (p ++ q).
Proof.
  intros Hp Hq g. rewrite run_app.
  eapply sameFrame_trans; [apply Hp | apply Hq].
Qed.

Lemma balanced_printsOnly_one (c : Cmd) : printsOnly c -> balanced [c].
Proof.
  intros H g. destruct c; try contradiction; cbn.
  - apply sameFrame_print.
  - apply sameFrame_printNewline.
  - unfold printNewlineIfNeeded. destruct (startOfIndentLevel g);
      [apply sameFrame_refl | apply sameFrame_printNewline].
  - apply sameFrame_printOnNewline.
Qed.

Lemma balanced_printsOnly (p : Program) : Forall printsOnly p -> balanced p.
Proof.
  induction 1 as [|c p Hc _ IH]; [apply balanced_nil|].
  change (c :: p) with ([c] ++ p).
  apply balanced_app; [now apply balanced_printsOnly_one | exact IH].
Qed.

Lemma balanced_withinBlock (closure : Program) :
  balanced closure -> balanced (withinBlock closure).
Proof.
  intros H g. unfold withinBlock, withIndent. rewrite !run_app.
  change (run [Print " {"] g) with (print " {" g).
  destruct (sameFrame_print " {" g) as [S1 I1].
  remember (print " {" g) as g1 eqn:E1. clear E1.
  change (run [IndentIn] g1)
    with (set_startOfIndentLevel (set_indentLevel g1 (S (indentLevel g1))) true).
  remember (set_startOfIndentLevel (set_indentLevel g1 (S (indentLevel g1))) true)
    as g2 eqn:E2.
  destruct (H g2) as [S2 I2].
  remember (run closure g2) as g3 eqn:E3. clear E3.
  change (run [IndentOut] g3) with (set_indentLevel g3 (pred (indentLevel g3))).
  remember (set_indentLevel g3 (pred (indentLevel g3))) as g4 eqn:E4.
  change (run [PrintOnNewline "}"] g4) with (printOnNewline "}" g4).
  eapply sameFrame_trans; [|apply sameFrame_printOnNewline].
  subst g4 g2. split; cbn in *; [congruence|].
  rewrite I2. cbn. exact I1.
Qed.

Lemma balanced_scope (n : string) (closure : Program) :
  balanced closure -> balanced ([PushScope n] ++ closure ++ [PopScope]).
Proof.
  intros H g. rewrite !run_app.
  change (run [PushScope n] g) with (set_scopeStack g (n :: scopeStack g)).
  remember (set_scopeStack g (n :: scopeStack g)) as g1 eqn:E1.
  destruct (H g1) as [S1 I1].
  remember (run closure g1) as g2 eqn:E2. clear E2.
  change (run [PopScope] g2) with (set_scopeStack g2 (tl (scopeStack g2))).
  subst g1. split; cbn in *; [now rewrite S1 | exact I1].
Qed.

Lemma balanced_flat_map {A : Type} (f : A -> Program) (xs : list A) :
  (forall x, balanced (f x)) -> balanced (flat_map f xs).
Proof.
  intros H. induction xs as [|x xs IH]; [apply balanced_nil|].
  simpl. now apply balanced_app.
Qed.

Lemma balanced_comment (d : option string) : balanced (comment d).
Proof.
  apply balanced_printsOnly. unfold comment.
  destruct d as [text|]; [|constructor]. destruct (truthy text); [|constructor].
  apply Forall_forall. intros c H. apply in_map_iff in H.
  destruct H as [line [<- _]]. exact I.
Qed.

Ltac prints_only := solve [apply balanced_printsOnly; repeat constructor].

Lemma balanced_declaration pn tn t d o l : balanced (declaration pn tn t d o l).
Proof.
  unfold declaration. apply balanced_app; [apply balanced_comment|].
  destruct l; [prints_only|].
  destruct t; try prints_only.
  repeat match goal with
         | |- context [if ?b then _ else _] => destruct b
         end;
    try prints_only.
  all: apply balanced_app; [prints_only|];
    apply balanced_app; [prints_only|];
    apply balanced_withinBlock; prints_only.
Qed.

Lemma balanced_propertyDeclaration (p : Property) (o l : bool) :
  balanced (propertyDeclaration p o l).
Proof. rewrite propertyDeclaration_classified. apply balanced_declaration. Qed.

Lemma balanced_block_declaration (before : Program) (n : string) (closure : Program) :
  Forall printsOnly before ->
  balanced closure ->
  balanced (before ++ PushScope n :: withinBlock closure ++ [PopScope]).
Proof.
  intros Hb Hc. apply balanced_app; [now apply balanced_printsOnly|].
  apply (balanced_scope n (withinBlock closure)). now apply balanced_withinBlock.
Qed.

Lemma balanced_classDeclaration (c : Class) (closure : Program) :
  balanced closure -> balanced (classDeclaration c closure).
Proof.
  intros H. unfold classDeclaration.
  apply (balanced_block_declaration [_; _; _]); [repeat constructor | exact H].
Qed.

Lemma balanced_namespaceDeclaration (ns : option string) (closure : Program) :
  balanced closure -> balanced (namespaceDeclaration ns closure).
Proof.
  intros H. unfold namespaceDeclaration.
  destruct ns as [ns|]; [|exact H]. destruct (truthy ns); [|exact H].
  apply (balanced_block_declaration [_; _; _]); [repeat constructor | exact H].
Qed.

Lemma balanced_structDeclaration (s : Struct) (closure : Program) :
  balanced closure -> balanced (structDeclaration s closure).
Proof.
  intros H. unfold structDeclaration.
  apply balanced_app; [prints_only|].
  apply balanced_app; [apply balanced_comment|].
  apply (balanced_block_declaration [_; _]); [repeat constructor | exact H].
Qed.

Lemma balanced_protocolDeclaration (p : Protocol) (closure : Program) :
  balanced closure -> balanced (protocolDeclaration p closure).
Proof.
  intros H. unfold protocolDeclaration.
  apply (balanced_block_declaration [_; _; _]); [repeat constructor | exact H].
Qed.

(** X19.  The four block declarations of the Swift generator, namespace,
    class, struct and protocol, leave the scope stack and the indentation
    as they found them whenever their closure does: each pushes one scope and
    pops it, and indents only its block.  The property declarations, with or
    without the primary-key block, and the comments do so too. *)
Theorem X19_block_declarations_balanced :
  (forall (closure : Program),
      balanced closure ->
      (forall ns, balanced (namespaceDeclaration ns closure))
      /\ (forall c, balanced (classDeclaration c closure))
      /\ (forall s, balanced (structDeclaration s closure))
      /\ (forall p, balanced (protocolDeclaration p closure)))
  /\ (forall properties, balanced (propertyDeclarations properties))
  /\ (forall properties, balanced (protocolPropertyDeclarations properties))
  /\ (forall d, balanced (comment d)).
Proof.
  split; [|split; [|split]].
  - intros closure H. split; [|split; [|split]]; intros x.
    + now apply balanced_namespaceDeclaration.
    + now apply balanced_classDeclaration.
    + now apply balanced_structDeclaration.
    + now apply balanced_protocolDeclaration.
  - intros [ps|]; [|apply balanced_nil]. simpl.
    apply balanced_flat_map. intros p. apply balanced_propertyDeclaration.
  - intros [ps|]; [|apply balanced_nil]. simpl.
    apply balanced_flat_map. intros p. prints_only.
  - exact balanced_comment.
Qed.

Lemma balanced_fieldDeclaration (field : GraphQLField) :
  balanced (fieldDeclaration field).
Proof.
  rewrite fieldDeclaration_classified.
  apply balanced_app; [|apply balanced_declaration].
  unfold fieldComment. destruct (GraphQL.description field);
    [apply balanced_comment | apply balanced_nil].
Qed.

Lemma balanced_generateOutputObjectForType (type : GraphQLNamedType) :
  balanced (generateOutputObjectForType camelCase rootTypeNameFromGraphQLType type).
Proof.
  unfold generateOutputObjectForType. apply balanced_classDeclaration.
  apply balanced_flat_map. exact balanced_fieldDeclaration.
Qed.

Lemma balanced_realmTypeDeclarationType (type : GraphQLNamedType) :
  balanced (realmTypeDeclarationType camelCase rootTypeNameFromGraphQLType type).
Proof.
  unfold realmTypeDeclarationType.
  destruct (asType type); try apply balanced_nil.
  destruct (isOutputType _); [|apply balanced_nil].
  cbv zeta. destruct (negb _); [|apply balanced_nil].
  apply balanced_generateOutputObjectForType.
Qed.

Lemma balanced_generateSource_program (context : CompilerContext) :
  balanced (generateSource_program camelCase rootTypeNameFromGraphQLType context).
Proof.
  unfold generateSource_program. apply balanced_app; [prints_only|].
  apply balanced_namespaceDeclaration, balanced_flat_map.
  exact balanced_realmTypeDeclarationType.
Qed.

(** X20.  Whatever the schema and the options, the calls of
    [generateSource] close every scope and every block they open: from any
    generator state they end with the scope stack and the indentation they
    started with, and from a new generator with no scope open and no
    indentation.  The initializer of an object type is balanced too. *)
Theorem X20_generateSource_closes_every_scope :
  (forall context : CompilerContext,
      balanced (generateSource_program camelCase rootTypeNameFromGraphQLType context)
      /\ scopeStack
           (run (generateSource_program camelCase rootTypeNameFromGraphQLType context)
                fresh) = []
      /\ indentLevel
           (run (generateSource_program camelCase rootTypeNameFromGraphQLType context)
                fresh) = 0)
  /\
  (forall object : GraphQLNamedType,
      balanced (generateOutputObjectInitializer camelCase typeNameFromGraphQLType object)).
Proof.
  split.
  - intros context.
    pose proof (balanced_generateSource_program context) as H.
    split; [exact H|]. exact (H fresh).
  - intros object. unfold generateOutputObjectInitializer, parametersForFields.
    apply balanced_app; [prints_only|].
    apply balanced_app; [prints_only|].
    apply balanced_withinBlock, balanced_printsOnly.
    apply Forall_app. split; [|repeat constructor].
    apply Forall_forall. intros c H. apply in_map_iff in H.
    destruct H as [f [<- _]]. exact I.
Qed.

(** ** The generated text *)

Lemma append_empty_r (s : string) : (s ++ "")%string = s.
Proof. induction s as [|x s IH]; simpl; [reflexivity | now rewrite IH]. Qed.

Lemma output_print (s : string) (g : CodeGenerator) :
  output (print s g) = (output g ++ s)%string.
Proof.
  unfold print. destruct s; simpl; [now rewrite append_empty_r | reflexivity].
Qed.

Lemma output_printNewline_extends (g : CodeGenerator) :
  exists rest, output (printNewline g) = (output g ++ rest)%string.
Proof.
  unfold printNewline. destruct (truthy (output g)).
  - exists nl. reflexivity.
  - exists ""%string. now rewrite append_empty_r.
Qed.

Lemma output_step_extends (c : Cmd) (g : CodeGenerator) :
  exists rest, output (step g c) = (output g ++ rest)%string.
Proof.
  destruct c; cbn; try (exists ""%string; now rewrite append_empty_r).
  - eexists. apply output_print.
  - apply output_printNewline_extends.
  - unfold printNewlineIfNeeded. destruct (startOfIndentLevel g).
    + exists ""%string. now rewrite append_empty_r.
    + apply output_printNewline_extends.
  - unfold printOnNewline. destruct (truthy maybeString).
    + destruct (output_printNewline_extends g) as [r Hr].
      rewrite output_print. unfold printIndent. cbn. rewrite Hr.
      eexists. rewrite !append_assoc. reflexivity.
    + exists ""%string. now rewrite append_empty_r.
Qed.

Lemma output_run_extends (p : Program) :
  forall g, exists rest, output (run p g) = (output g ++ rest)%string.
Proof.
  induction p as [|c p IH]; intros g.
  - exists ""%string. cbn. now rewrite append_empty_r.
  - change (run (c :: p) g) with (run p (step g c)).
    destruct (IH (step g c)) as [r1 H1].
    destruct (output_step_extends c g) as [r2 H2].
    exists (r2 ++ r1)%string. now rewrite H1, H2, append_assoc.
Qed.

(** X21.  Whatever the schema and the options, the text [generateSource]
    returns begins with the file header: the printer only appends, and the
    header is printed first. *)
Theorem X21_generateSource_begins_with_header :
  forall context : CompilerContext,
    exists rest : string,
      generateSource camelCase rootTypeNameFromGraphQLType context =
      (fileHeaderText ++ rest)%string.
Proof.
  intros context. unfold generateSource, generateSource_program.
  rewrite run_app. apply output_run_extends.
Qed.

Lemma realmTypeDeclarationType_emitsClass (type : GraphQLNamedType) :
  realmTypeDeclarationType camelCase rootTypeNameFromGraphQLType type =
  if emitsClass type
  then generateOutputObjectForType camelCase rootTypeNameFromGraphQLType type
  else [].
Proof.
  unfold realmTypeDeclarationType, emitsClass.
  destruct (asType type); reflexivity.
Qed.

Lemma flat_map_filter_nil {A B : Type} (f : A -> list B) (keep : A -> bool) (xs : list A) :
  (forall x, keep x = false -> f x = []) ->
  flat_map f (filter keep xs) = flat_map f xs.
Proof.
  intros H. induction xs as [|x xs IH]; [reflexivity|].
  simpl. destruct (keep x) eqn:E; simpl; [now rewrite IH|].
  now rewrite (H x E), IH.
Qed.

(** X22.  The types that get no class, scalars, enums, interfaces, unions,
    input objects and the object types named with two leading underscores,
    play no part in the output: removing them from the type map leaves the
    generated text unchanged. *)
Theorem X22_only_emitting_types_matter :
  forall context : CompilerContext,
    generateSource camelCase rootTypeNameFromGraphQLType context =
    generateSource camelCase rootTypeNameFromGraphQLType
      {| schema :=
           {| getTypeMap :=
                filter (fun entry => emitsClass (snd entry))
                       (getTypeMap (schema context)) |};
         options := options context |}.
Proof.
  intros context. unfold generateSource, generateSource_program.
  cbn [schema options getTypeMap]. unfold Object_values.
  assert (E : forall tm : list (string * GraphQLNamedType),
             map snd (filter (fun entry => emitsClass (snd entry)) tm) =
             filter emitsClass (map snd tm)).
  { induction tm as [|[k t] tm IH]; [reflexivity|].
    cbn [filter map snd]. destruct (emitsClass t); cbn [map snd]; now rewrite IH. }
  rewrite E, flat_map_filter_nil; [reflexivity|].
  intros t Ht. now rewrite realmTypeDeclarationType_emitsClass, Ht.
Qed.

(** ** The scopes of a generated file *)

Lemma scopesOpened_app (p q : Program) :
  scopesOpened (p ++ q) = scopesOpened p ++ scopesOpened q.
Proof.
  induction p as [|c p IH]; [reflexivity|].
  destruct c; simpl; now rewrite IH.
Qed.

Lemma scopesOpened_flat_map {A : Type} (f : A -> Program) (xs : list A) :
  scopesOpened (flat_map f xs) = flat_map (fun x => scopesOpened (f x)) xs.
Proof.
  induction xs as [|x xs IH]; [reflexivity|].
  simpl. now rewrite scopesOpened_app, IH.
Qed.

Lemma scopesOpened_comment (d : option string) : scopesOpened (comment d) = [].
Proof.
  unfold comment. destruct d as [text|]; [|reflexivity].
  destruct (truthy text); [|reflexivity].
  induction (split newline text) as [|l ls IH]; [reflexivity | exact IH].
Qed.

Lemma scopesOpened_declaration pn tn t d o l :
  scopesOpened (declaration pn tn t d o l) = [].
Proof.
  unfold declaration. rewrite scopesOpened_app, scopesOpened_comment.
  destruct l; [reflexivity|]. destruct t; try reflexivity.
  repeat match goal with
         | |- context [if ?b then _ else _] => destruct b
         end; reflexivity.
Qed.

Lemma scopesOpened_fieldDeclaration (field : GraphQLField) :
  scopesOpened (fieldDeclaration field) = [].
Proof.
  rewrite fieldDeclaration_classified, scopesOpened_app, scopesOpened_declaration.
  unfold fieldComment. destruct (GraphQL.description field);
    [now rewrite scopesOpened_comment | reflexivity].
Qed.

Lemma scopesOpened_generateOutputObjectForType (type : GraphQLNamedType) :
  scopesOpened (generateOutputObjectForType camelCase rootTypeNameFromGraphQLType type) =
  [name_of (asType type)].
Proof.
  rewrite generateOutputObjectForType_unfold.
  rewrite !scopesOpened_app, scopesOpened_flat_map. cbn [scopesOpened app].
  f_equal.
  induction (Object_values (getFields type)) as [|f fs IH]; [reflexivity|].
  cbn [flat_map]. fold (fieldDeclaration f).
  now rewrite scopesOpened_fieldDeclaration.
Qed.

(** X23.  The scopes a generated file opens are, in order, the namespace
    when the option is present and not empty, and then one scope for each
    type of the type map that gets a class, under the name of the type and
    in the order of the map; fields, comments and the primary-key block open
    none. *)
Theorem X23_scopes_of_generateSource :
  forall context : CompilerContext,
    scopesOpened (generateSource_program camelCase rootTypeNameFromGraphQLType context) =
    namespaceScope (namespace (options context))
    ++ map (fun type => name_of (asType type))
           (filter emitsClass (Object_values (getTypeMap (schema context)))).
Proof.
  intros context. unfold generateSource_program.
  rewrite scopesOpened_app. cbn [fileHeader scopesOpened app].
  assert (E : scopesOpened
                (flat_map (realmTypeDeclarationType camelCase rootTypeNameFromGraphQLType)
                          (Object_values (getTypeMap (schema context)))) =
              map (fun type => name_of (asType type))
                  (filter emitsClass (Object_values (getTypeMap (schema context))))).
  { rewrite scopesOpened_flat_map.
    induction (Object_values (getTypeMap (schema context))) as [|t ts IH]; [reflexivity|].
    cbn [flat_map filter]. rewrite IH, realmTypeDeclarationType_emitsClass.
    destruct (emitsClass t); [|reflexivity].
    now rewrite scopesOpened_generateOutputObjectForType. }
  unfold namespaceDeclaration, namespaceScope.
  destruct (namespace (options context)) as [ns|]; [|exact E].
  destruct (truthy ns); [|exact E].
  unfold withinBlock, withIndent.
  rewrite !scopesOpened_app. cbn [scopesOpened app]. rewrite E.
  rewrite !app_nil_r. reflexivity.
Qed.

(** ** Initializer parameters *)

Lemma truthy_append_r (a b : string) : truthy b = true -> truthy (a ++ b) = true.
Proof. destruct a; simpl; auto. Qed.

Lemma parameterForFieldName_shape (fieldName : string) (type : GraphQLType) :
  parameterForFieldName typeNameFromGraphQLType fieldName type =
  (escapeIdentifierIfNeeded fieldName ++ ": " ++ typeNameFromGraphQLType type
   ++ (if isNonNull type then "" else " = nil"))%string.
Proof.
  unfold parameterForFieldName, join.
  assert (T : truthy (escapeIdentifierIfNeeded fieldName ++ ": "
                      ++ typeNameFromGraphQLType type) = true).
  { apply truthy_append_r. reflexivity. }
  destruct type; cbn [flat_map isNonNull]; rewrite T; cbn [truthy app String.concat];
    try (now rewrite !append_assoc).
  now rewrite append_empty_r.
Qed.

(** X24.  The initializer parameter of a field is the escaped field name, a
    colon and the type name, followed by the default [ = nil] exactly when
    the outermost wrapper of the type is not a non-null.  For a type without
    list wrapper that is exactly when [propertyDeclaration] classifies the
    field as optional. *)
Theorem X24_parameter_default_nil :
  (forall (fieldName : string) (type : GraphQLType),
      parameterForFieldName typeNameFromGraphQLType fieldName type =
      (escapeIdentifierIfNeeded fieldName ++ ": " ++ typeNameFromGraphQLType type
       ++ (if isNonNull type then "" else " = nil"))%string)
  /\
  (forall type : GraphQLType,
      wrappedInList type = false ->
      snd (fst (classifyField type)) = negb (isNonNull type)).
Proof.
  split; [exact parameterForFieldName_shape|].
  intros type H. unfold classifyField. rewrite classify_isOptional, andb_true_r.
  destruct type; simpl in *; try reflexivity. discriminate H.
Qed.

Lemma join_present {sep : string} (xs : list string) :
  Forall (fun x => truthy x = true) xs ->
  join (map Some xs) sep = String.concat sep xs.
Proof.
  intros H. unfold join. f_equal.
  induction H as [|x xs Hx _ IH]; [reflexivity|].
  cbn [map flat_map]. now rewrite Hx, IH.
Qed.

(** X25.  [parametersForFields] appends to the output the parameters of all
    the fields, in order, separated by a comma and a space, between
    parentheses: no parameter is left out by the joining, and no field gives
    the two parentheses alone. *)
Theorem X25_parameter_list_text :
  forall (fields : list GraphQLField) (g : CodeGenerator),
    output (run (parametersForFields camelCase typeNameFromGraphQLType fields) g) =
    (output g ++ "("
     ++ String.concat ", "
          (map (fun field =>
                  parameterForFieldName typeNameFromGraphQLType
                    (camelCase (GraphQL.name field)) (GraphQL.type field))
               fields)
     ++ ")")%string.
Proof.
  intros fields g. unfold parametersForFields, run. cbn [fold_left step].
  rewrite !output_print, !append_assoc. do 2 f_equal.
  rewrite <- (join_present (sep := ", ")).
  - now rewrite map_map.
  - apply Forall_forall. intros x H. apply in_map_iff in H.
    destruct H as [f [<- _]]. rewrite parameterForFieldName_shape.
    apply truthy_append_r. reflexivity.
Qed.

End GeneratorRows.

(** ** The decision table at the sample schema *)

Lemma X13_witness :
  wrappedInList (GraphQL.type friendField) = false
  /\ innermost (GraphQL.type friendField) = GraphQLObjectType "User"
  /\ generateFieldDeclaration asWritten innermostName friendField "" =
     [PrintOnNewline "dynamic var friend: User?"].
Proof.
  split; [reflexivity|]. split; [reflexivity|].
  exact (X13_object_field_always_optional asWritten innermostName
           friendField "User"%string eq_refl eq_refl).
Defined.

Lemma X14_witness :
  wrappedInList (GraphQL.type roleField) = false
  /\ innermost (GraphQL.type roleField) = GraphQLEnumType "Role"
  /\ generateFieldDeclaration asWritten innermostName roleField "" =
     [PrintOnNewline "dynamic var role: String? = nil"].
Proof.
  split; [reflexivity|]. split; [reflexivity|].
  exact (X14_enum_field_optional_string asWritten innermostName
           roleField "Role"%string eq_refl eq_refl).
Defined.

Lemma X15_witness :
  wrappedInList (GraphQL.type ownerField) = false
  /\ innermost (GraphQL.type ownerField) = GraphQLUnionType "Owner"
  /\ generateFieldDeclaration asWritten innermostName ownerField "" =
     [PrintOnNewline "/// Who owns it"].
Proof.
  split; [reflexivity|]. split; [reflexivity|].
  exact (X15_abstract_field_not_declared asWritten innermostName ownerField eq_refl
           (ex_intro _ "Owner"%string (or_intror (or_introl eq_refl)))).
Defined.

Lemma X16_witness :
  wrappedInList (GraphQL.type ageField) = false
  /\ innermost (GraphQL.type ageField) = GraphQLInt
  /\ generateFieldDeclaration asWritten innermostName ageField "" =
     [PrintOnNewline "dynamic var age = 0"]
  /\ generateFieldDeclaration asWritten innermostName scoreField "" =
     [PrintOnNewline "let score = RealmOptional<Float>()"].
Proof.
  split; [reflexivity|]. split; [reflexivity|]. split.
  - exact (proj1 (X16_numeric_field_forms asWritten innermostName ageField eq_refl)
             eq_refl).
  - exact (proj2 (X16_numeric_field_forms asWritten innermostName scoreField eq_refl)
             eq_refl).
Defined.

Lemma X17_witness :
  wrappedInList (GraphQL.type nameField) = false
  /\ innermost (GraphQL.type nameField) = GraphQLString
  /\ generateFieldDeclaration asWritten innermostName nameField "" =
     [PrintOnNewline "/// The full name";
      PrintOnNewline "dynamic var name: String? = nil"].
Proof.
  split; [reflexivity|]. split; [reflexivity|].
  exact (X17_string_field_forms asWritten innermostName nameField eq_refl eq_refl).
Defined.

Lemma X18_witness :
  wrappedInList (GraphQL.type idField) = false
  /\ innermost (GraphQL.type idField) = GraphQLID
  /\ generateFieldDeclaration asWritten innermostName idField "" =
     [PrintOnNewline ("dynamic var id = " ++ dquote ++ dquote);
      PrintOnNewline "override public static func primaryKey() -> String?";
      Print " {";
      IndentIn;
      PrintOnNewline ("return " ++ dquote ++ "id" ++ dquote);
      IndentOut;
      PrintOnNewline "}"].
Proof.
  split; [reflexivity|]. split; [reflexivity|].
  exact (X18_id_field_block asWritten innermostName idField eq_refl eq_refl).
Defined.

Lemma X19_witness :
  balanced (comment (Some blankLineComment))
  /\ balanced (classDeclaration
                 (mkClass "User" ["public"%string; "final"%string] None
                    (Some ["Object"%string]))
                 (comment (Some blankLineComment)))
  /\ balanced (namespaceDeclaration (Some "API"%string)
                 (comment (Some blankLineComment))).
Proof.
  pose proof (proj2 (proj2 (proj2 X19_block_declarations_balanced))
                (Some blankLineComment)) as H.
  split; [exact H|]. split.
  - exact (proj1 (proj2 (proj1 X19_block_declarations_balanced _ H)) _).
  - exact (proj1 (proj1 X19_block_declarations_balanced _ H) _).
Defined.

Lemma X24_witness :
  wrappedInList (GraphQLNonNull GraphQLString) = false
  /\ snd (fst (classifyField (GraphQLNonNull GraphQLString))) = false
  /\ parameterForFieldName innermostName "class" (GraphQLNonNull GraphQLString) =
     "`class`: String"%string.
Proof.
  split; [reflexivity|]. split.
  - exact (proj2 (X24_parameter_default_nil innermostName)
             (GraphQLNonNull GraphQLString) eq_refl).
  - exact (proj1 (X24_parameter_default_nil innermostName)
             "class"%string (GraphQLNonNull GraphQLString)).
Defined.

(** ** Classes, declarations and markers of a generated file *)

Lemma beginsWith_append (prefix rest : string) :
  beginsWith prefix (prefix ++ rest) = true.
Proof.
  induction prefix as [|a prefix IH]; [reflexivity|].
  simpl. now rewrite Ascii.eqb_refl, IH.
Qed.

Lemma list_sum_indicator {A : Type} (keep : A -> bool) (xs : list A) :
  list_sum (map (fun x => if keep x then 1 else 0) xs) = List.length (filter keep xs).
Proof.
  induction xs as [|x xs IH]; [reflexivity|].
  simpl. rewrite IH. now destruct (keep x).
Qed.

Lemma list_sum_cons (x : nat) (xs : list nat) : list_sum (x :: xs) = x + list_sum xs.
Proof. reflexivity. Qed.

Lemma propertyDeclarationLines_app (p q : Program) :
  propertyDeclarationLines (p ++ q) =
  propertyDeclarationLines p + propertyDeclarationLines q.
Proof.
  unfold propertyDeclarationLines. now rewrite filter_app, length_app.
Qed.

Lemma propertyDeclarationLines_flat_map {A : Type} (f : A -> Program) (xs : list A) :
  propertyDeclarationLines (flat_map f xs) =
  list_sum (map (fun x => propertyDeclarationLines (f x)) xs).
Proof.
  induction xs as [|x xs IH]; [reflexivity|].
  simpl. now rewrite propertyDeclarationLines_app, IH.
Qed.

Lemma propertyDeclarationLines_comment (d : option string) :
  propertyDeclarationLines (comment d) = 0.
Proof.
  unfold comment. destruct d as [text|]; [|reflexivity].
  destruct (truthy text); [|reflexivity].
  induction (split newline text) as [|line lines IH]; [reflexivity | exact IH].
Qed.

Lemma propertyDeclarationLines_declaration pn tn t d o l :
  propertyDeclarationLines (declaration pn tn t d o l) =
  if l || kindDeclares t then 1 else 0.
Proof.
  unfold declaration.
  rewrite propertyDeclarationLines_app, propertyDeclarationLines_comment.
  destruct l; [reflexivity|]. cbn [orb plus].
  destruct t as [n|n|n|n|n|n|t'|t']; try reflexivity.
  unfold kindDeclares, has, builtInScalarNames. cbn [existsb].
  destruct (n =? "Boolean")%string; [now destruct o|].
  destruct (n =? "Int")%string; [now destruct o|].
  destruct (n =? "Float")%string; [now destruct o|].
  destruct (n =? "String")%string; [now destruct o|].
  destruct (n =? "ID")%string; [now destruct o | reflexivity].
Qed.

Lemma classHeaders_app (p q : Program) :
  classHeaders (p ++ q) = classHeaders p ++ classHeaders q.
Proof.
  induction p as [|c p IH]; [reflexivity|].
  destruct c; cbn [app classHeaders]; try exact IH.
  destruct (beginsWith "public final class " maybeString); cbn [app]; now rewrite IH.
Qed.

Lemma classHeaders_flat_map {A : Type} (f : A -> Program) (xs : list A) :
  classHeaders (flat_map f xs) = flat_map (fun x => classHeaders (f x)) xs.
Proof.
  induction xs as [|x xs IH]; [reflexivity|].
  simpl. now rewrite classHeaders_app, IH.
Qed.

Lemma classHeaders_comment (d : option string) : classHeaders (comment d) = [].
Proof.
  unfold comment. destruct d as [text|]; [|reflexivity].
  destruct (truthy text); [|reflexivity].
  induction (split newline text) as [|line lines IH]; [reflexivity | exact IH].
Qed.

Lemma classHeaders_declaration pn tn t d o l :
  classHeaders (declaration pn tn t d o l) = [].
Proof.
  unfold declaration. rewrite classHeaders_app, classHeaders_comment.
  destruct l; [reflexivity|]. destruct t; try reflexivity.
  repeat match goal with
         | |- context [if ?b then _ else _] => destruct b
         end; reflexivity.
Qed.

(** A line a program prints is part of the text the program leaves. *)
Lemma printed_line_in_text (p : Program) (s : string) (g : CodeGenerator) :
  In (PrintOnNewline s) p ->
  exists before after : string, output (run p g) = (before ++ s ++ after)%string.
Proof.
  intros H. apply in_split in H. destruct H as [p1 [p2 ->]].
  rewrite run_app. change (run (PrintOnNewline s :: p2) (run p1 g))
    with (run p2 (printOnNewline s (run p1 g))).
  destruct (output_run_extends p2 (printOnNewline s (run p1 g))) as [rest Hr].
  rewrite Hr. unfold printOnNewline.
  destruct s as [|a s].
  - exists (output (run p1 g)), rest. reflexivity.
  - cbn [truthy]. rewrite output_print.
    exists (output (printIndent (printNewline (run p1 g)))), rest.
    now rewrite append_assoc.
Qed.

Lemma In_namespaceDeclaration (c : Cmd) (ns : option string) (closure : Program) :
  In c closure -> In c (namespaceDeclaration ns closure).
Proof.
  intros H. unfold namespaceDeclaration, withinBlock, withIndent.
  destruct ns as [ns|]; [|exact H]. destruct (truthy ns); [|exact H].
  rewrite !in_app_iff. tauto.
Qed.

Section Driver.

Variable camelCase : string -> string.
Variable rootTypeNameFromGraphQLType : GraphQLType -> string.

Let fieldDeclaration (field : GraphQLField) : Program :=
  generateFieldDeclaration camelCase rootTypeNameFromGraphQLType field "".

Let typeDeclaration (type : GraphQLNamedType) : Program :=
  realmTypeDeclarationType camelCase rootTypeNameFromGraphQLType type.

Let program (context : CompilerContext) : Program :=
  generateSource_program camelCase rootTypeNameFromGraphQLType context.

(** The comment of a field and the declaration of its classified type. *)
Let classified (field : GraphQLField) : Program :=
  fieldComment field ++
  declaration (camelCase (GraphQL.name field))
    (rootTypeNameFromGraphQLType (GraphQL.type field))
    (innermost (GraphQL.type field)) None
    (negb (wrappedInNonNull (GraphQL.type field)))
    (wrappedInList (GraphQL.type field)).

Let classHeader (type : GraphQLNamedType) : string :=
  ("public final class " ++ name_of (asType type))%string.

Let classOpening (type : GraphQLNamedType) : Program :=
  [PrintNewlineIfNeeded;
   PrintOnNewline (classHeader type);
   Print ": Object";
   PushScope (name_of (asType type));
   Print " {";
   IndentIn].

Let classClosing : Program := [IndentOut; PrintOnNewline "}"; PopScope].

Lemma fieldDeclaration_is_classified (field : GraphQLField) :
  fieldDeclaration field = classified field.
Proof. exact (fieldDeclaration_classified camelCase rootTypeNameFromGraphQLType field). Qed.

Lemma typeDeclaration_emitting (type : GraphQLNamedType) :
  emitsClass type = true ->
  typeDeclaration type =
  classOpening type
  ++ flat_map fieldDeclaration (Object_values (getFields type))
  ++ classClosing.
Proof.
  intros H. unfold typeDeclaration.
  rewrite realmTypeDeclarationType_emitsClass, H.
  exact (generateOutputObjectForType_unfold camelCase rootTypeNameFromGraphQLType type).
Qed.

Lemma typeDeclaration_not_emitting (type : GraphQLNamedType) :
  emitsClass type = false -> typeDeclaration type = [].
Proof.
  intros H. unfold typeDeclaration. now rewrite realmTypeDeclarationType_emitsClass, H.
Qed.

Lemma propertyDeclarationLines_fieldDeclaration (field : GraphQLField) :
  propertyDeclarationLines (fieldDeclaration field) =
  if declaresProperty (GraphQL.type field) then 1 else 0.
Proof.
  rewrite fieldDeclaration_is_classified. unfold classified.
  rewrite propertyDeclarationLines_app, propertyDeclarationLines_declaration.
  unfold fieldComment. destruct (GraphQL.description field);
    [now rewrite propertyDeclarationLines_comment | reflexivity].
Qed.

Lemma propertyDeclarationLines_typeDeclaration (type : GraphQLNamedType) :
  propertyDeclarationLines (typeDeclaration type) =
  if emitsClass type then List.length (declaredFields type) else 0.
Proof.
  destruct (emitsClass type) eqn:E.
  - rewrite (typeDeclaration_emitting type E).
    rewrite !propertyDeclarationLines_app, propertyDeclarationLines_flat_map.
    change (propertyDeclarationLines (classOpening type)) with 0.
    change (propertyDeclarationLines classClosing) with 0.
    rewrite Nat.add_0_l, Nat.add_0_r. unfold declaredFields.
    rewrite <- list_sum_indicator. f_equal. apply map_ext.
    exact propertyDeclarationLines_fieldDeclaration.
  - now rewrite (typeDeclaration_not_emitting type E).
Qed.

Lemma classHeaders_fieldDeclaration (field : GraphQLField) :
  classHeaders (fieldDeclaration field) = [].
Proof.
  rewrite fieldDeclaration_is_classified. unfold classified.
  rewrite classHeaders_app, classHeaders_declaration.
  unfold fieldComment. destruct (GraphQL.description field);
    [now rewrite classHeaders_comment | reflexivity].
Qed.

Lemma classHeaders_typeDeclaration (type : GraphQLNamedType) :
  classHeaders (typeDeclaration type) =
  if emitsClass type then [classHeader type] else [].
Proof.
  destruct (emitsClass type) eqn:E.
  - rewrite (typeDeclaration_emitting type E).
    rewrite !classHeaders_app, classHeaders_flat_map.
    assert (F : flat_map (fun x => classHeaders (fieldDeclaration x))
                  (Object_values (getFields type)) = []).
    { induction (Object_values (getFields type)) as [|f fs IH]; [reflexivity|].
      cbn [flat_map]. now rewrite classHeaders_fieldDeclaration, IH. }
    rewrite F. unfold classOpening, classHeader. cbn [classHeaders].
    rewrite beginsWith_append. reflexivity.
  - now rewrite (typeDeclaration_not_emitting type E).
Qed.

Lemma program_unfold (context : CompilerContext) :
  program context =
  fileHeader ++
  namespaceDeclaration (namespace (options context))
    (flat_map typeDeclaration (Object_values (getTypeMap (schema context)))).
Proof. reflexivity. Qed.

Lemma namespaceDeclaration_unfold (ns : option string) (closure : Program) :
  exists opening closing : Program,
    namespaceDeclaration ns closure = opening ++ closure ++ closing
    /\ propertyDeclarationLines opening = 0 /\ propertyDeclarationLines closing = 0
    /\ classHeaders opening = [] /\ classHeaders closing = [].
Proof.
  unfold namespaceDeclaration, withinBlock, withIndent.
  destruct ns as [[|a ns]|].
  - exists [], []. rewrite app_nil_r. repeat split; reflexivity.
  - exists [PrintNewlineIfNeeded;
            PrintOnNewline ("/// " ++ String a ns ++ " namespace");
            PrintOnNewline ("public enum " ++ String a ns);
            PushScope (String a ns); Print " {"; IndentIn],
           [IndentOut; PrintOnNewline "}"; PopScope].
    cbn [truthy]. split; [|repeat split; reflexivity].
    cbn [app]. rewrite <- !app_assoc. reflexivity.
  - exists [], []. rewrite app_nil_r. repeat split; reflexivity.
Qed.

Lemma propertyDeclarationLines_program (context : CompilerContext) :
  propertyDeclarationLines (program context) =
  list_sum (map (fun type => List.length (declaredFields type))
                (filter emitsClass (Object_values (getTypeMap (schema context))))).
Proof.
  rewrite program_unfold.
  destruct (namespaceDeclaration_unfold (namespace (options context))
              (flat_map typeDeclaration (Object_values (getTypeMap (schema context)))))
    as [op [cl [-> [Ho [Hc _]]]]].
  rewrite !propertyDeclarationLines_app, Ho, Hc, propertyDeclarationLines_flat_map.
  change (propertyDeclarationLines fileHeader) with 0.
  rewrite Nat.add_0_l, Nat.add_0_l, Nat.add_0_r.
  induction (Object_values (getTypeMap (schema context))) as [|t ts IH]; [reflexivity|].
  cbn [map filter]. rewrite list_sum_cons, IH, propertyDeclarationLines_typeDeclaration.
  destruct (emitsClass t); reflexivity.
Qed.

Lemma classHeaders_program (context : CompilerContext) :
  classHeaders (program context) =
  map classHeader (filter emitsClass (Object_values (getTypeMap (schema context)))).
Proof.
  rewrite program_unfold.
  destruct (namespaceDeclaration_unfold (namespace (options context))
              (flat_map typeDeclaration (Object_values (getTypeMap (schema context)))))
    as [op [cl [-> [_ [_ [Ho Hc]]]]]].
  rewrite !classHeaders_app, Ho, Hc, classHeaders_flat_map, app_nil_r.
  change (classHeaders fileHeader) with (@nil string). cbn [app].
  induction (Object_values (getTypeMap (schema context))) as [|t ts IH]; [reflexivity|].
  cbn [flat_map filter]. rewrite IH, classHeaders_typeDeclaration.
  destruct (emitsClass t); reflexivity.
Qed.

Lemma In_program (context : CompilerContext) (type : GraphQLNamedType)
    (field : GraphQLField) (c : Cmd) :
  In type (Object_values (getTypeMap (schema context))) ->
  emitsClass type = true ->
  In field (Object_values (getFields type)) ->
  In c (fieldDeclaration field) ->
  In c (program context).
Proof.
  intros Ht He Hf Hc. rewrite program_unfold.
  apply in_or_app. right. apply In_namespaceDeclaration.
  apply in_flat_map. exists type. split; [exact Ht|].
  rewrite (typeDeclaration_emitting type He).
  apply in_or_app. right. apply in_or_app. left.
  apply in_flat_map. exists field. split; assumption.
Qed.

(** C4, as amended.  The driver prints a class declaration for a type of
    the type map exactly when the type is an object type, usable as output,
    whose name does not start with two underscores.  The class then has the
    name of the type, the modifiers [public final] and the one adopted
    protocol [Object]; its block holds, for each field in the order of the
    field map, the comment of the field's description and the declaration of
    its classified type.  That is one property declaration for a field whose
    type has a list wrapper or whose innermost type is an object type, an
    enum or a built-in scalar, and none for any other field, so the class
    holds as many property declarations as it has such fields.  Any other
    type prints nothing, and the class headers of a generated file are those
    of the emitting types in the order of the type map. *)
Theorem C4_class_per_output_object_type :
  (forall type : GraphQLNamedType,
      (typeDeclaration type <> [] <->
       isObjectType (asType type) = true
       /\ isOutputType (asType type) = true
       /\ startsWith (name_of (asType type)) "__" = false)
      /\
      (isObjectType (asType type) = true ->
       startsWith (name_of (asType type)) "__" = false ->
       typeDeclaration type =
       classOpening type
       ++ flat_map classified (Object_values (getFields type))
       ++ classClosing
       /\ propertyDeclarationLines (typeDeclaration type) =
          List.length (declaredFields type))
      /\
      (isObjectType (asType type) = false
       \/ startsWith (name_of (asType type)) "__" = true ->
       typeDeclaration type = []))
  /\
  (forall field : GraphQLField,
      fieldDeclaration field = classified field
      /\ propertyDeclarationLines (fieldDeclaration field) =
         if declaresProperty (GraphQL.type field) then 1 else 0)
  /\
  (forall context : CompilerContext,
      classHeaders (program context) =
      map classHeader
          (filter emitsClass (Object_values (getTypeMap (schema context))))).
Proof.
  split; [|split].
  - intros type.
    assert (O : isObjectType (asType type) = true -> isOutputType (asType type) = true).
    { destruct (asType type); simpl; congruence. }
    destruct (emitsClass type) eqn:E.
    + pose proof E as E'. unfold emitsClass in E'.
      apply andb_true_iff in E'. destruct E' as [Ho Hp].
      apply negb_true_iff in Hp.
      pose proof (typeDeclaration_emitting type E) as Ht.
      split; [|split].
      * split; [auto | intros _ H; rewrite Ht in H; discriminate H].
      * intros _ _. split.
        -- rewrite Ht. do 2 f_equal.
           apply flat_map_ext. exact fieldDeclaration_is_classified.
        -- now rewrite propertyDeclarationLines_typeDeclaration, E.
      * intros [H|H]; congruence.
    + pose proof (typeDeclaration_not_emitting type E) as Ht.
      unfold emitsClass in E. apply andb_false_iff in E.
      split; [|split].
      * split; [intros H; now contradiction H|].
        intros [Ho [_ Hp]]. destruct E as [E|E]; [congruence|].
        rewrite Hp in E. discriminate E.
      * intros Ho Hp. destruct E as [E|E]; [congruence|].
        rewrite Hp in E. discriminate E.
      * intros _. exact Ht.
  - intros field. split;
      [apply fieldDeclaration_is_classified | apply propertyDeclarationLines_fieldDeclaration].
  - exact classHeaders_program.
Qed.

(** C6, as amended.  Every generator method is a total function to the calls
    it makes, with no error result.  A field whose type is a scalar named
    otherwise than the five built-in scalars, under non-null wrappers only,
    prints the marker [UNCAUGHT SCALAR <name>] where its declaration would
    be; under a list wrapper it prints the collection form and no marker.
    With such a field in an emitting type of the type map, the program of
    the file is the header and, in the namespace, the declarations of the
    types before, the class of the type with the declarations of the fields
    before, the marker and the declarations of the fields after, and the
    declarations of the types after; the marker is part of the text
    [generateSource] returns.  In every file the class headers are those of
    all the emitting types, the property declarations are as many as their
    declaring fields, every call of every field of every emitting type is
    made, and every line printed is part of the returned text. *)
Theorem C6_uncaught_scalar_marker :
  (forall (field : GraphQLField) (n : string),
      wrappedInList (GraphQL.type field) = false ->
      innermost (GraphQL.type field) = GraphQLScalarType n ->
      ~ In n builtInScalarNames ->
      fieldDeclaration field =
      fieldComment field ++ [PrintOnNewline ("UNCAUGHT SCALAR " ++ n)])
  /\
  (forall (field : GraphQLField) (n : string),
      wrappedInList (GraphQL.type field) = true ->
      innermost (GraphQL.type field) = GraphQLScalarType n ->
      fieldDeclaration field =
      fieldComment field ++
      [PrintOnNewline ("let " ++ camelCase (GraphQL.name field) ++ " = List<"
                       ++ rootTypeNameFromGraphQLType (GraphQL.type field) ++ ">()")]
      /\ ~ In (PrintOnNewline ("UNCAUGHT SCALAR " ++ n)) (fieldDeclaration field))
  /\
  (forall (context : CompilerContext) before key (type : GraphQLNamedType) after
          fieldsBefore fieldKey (field : GraphQLField) fieldsAfter (n : string),
      getTypeMap (schema context) = before ++ (key, type) :: after ->
      emitsClass type = true ->
      getFields type = fieldsBefore ++ (fieldKey, field) :: fieldsAfter ->
      wrappedInList (GraphQL.type field) = false ->
      innermost (GraphQL.type field) = GraphQLScalarType n ->
      ~ In n builtInScalarNames ->
      program context =
      fileHeader ++
      namespaceDeclaration (namespace (options context))
        (flat_map typeDeclaration (Object_values before)
         ++ (classOpening type
             ++ flat_map fieldDeclaration (Object_values fieldsBefore)
             ++ (fieldComment field ++ [PrintOnNewline ("UNCAUGHT SCALAR " ++ n)])
             ++ flat_map fieldDeclaration (Object_values fieldsAfter)
             ++ classClosing)
         ++ flat_map typeDeclaration (Object_values after))
      /\ exists textBefore textAfter : string,
           generateSource camelCase rootTypeNameFromGraphQLType context =
           (textBefore ++ ("UNCAUGHT SCALAR " ++ n) ++ textAfter)%string)
  /\
  (forall context : CompilerContext,
      classHeaders (program context) =
      map classHeader (filter emitsClass (Object_values (getTypeMap (schema context))))
      /\ propertyDeclarationLines (program context) =
         list_sum (map (fun type => List.length (declaredFields type))
                       (filter emitsClass (Object_values (getTypeMap (schema context)))))
      /\ (forall (type : GraphQLNamedType) (field : GraphQLField) (c : Cmd),
             In type (Object_values (getTypeMap (schema context))) ->
             emitsClass type = true ->
             In field (Object_values (getFields type)) ->
             In c (fieldDeclaration field) ->
             In c (program context))
      /\ (forall s : string,
             In (PrintOnNewline s) (program context) ->
             exists textBefore textAfter : string,
               generateSource camelCase rootTypeNameFromGraphQLType context =
               (textBefore ++ s ++ textAfter)%string)).
Proof.
  assert (A : forall (field : GraphQLField) (n : string),
             wrappedInList (GraphQL.type field) = false ->
             innermost (GraphQL.type field) = GraphQLScalarType n ->
             ~ In n builtInScalarNames ->
             fieldDeclaration field =
             fieldComment field ++ [PrintOnNewline ("UNCAUGHT SCALAR " ++ n)]).
  { exact (fieldDeclaration_uncaught_scalar camelCase rootTypeNameFromGraphQLType). }
  assert (T : forall (context : CompilerContext) (s : string),
             In (PrintOnNewline s) (program context) ->
             exists textBefore textAfter : string,
               generateSource camelCase rootTypeNameFromGraphQLType context =
               (textBefore ++ s ++ textAfter)%string).
  { intros context s H. unfold generateSource. now apply printed_line_in_text. }
  split; [exact A|]. split; [|split].
  - intros field n Hl Hi.
    assert (E : fieldDeclaration field =
                fieldComment field ++
                [PrintOnNewline ("let " ++ camelCase (GraphQL.name field) ++ " = List<"
                                 ++ rootTypeNameFromGraphQLType (GraphQL.type field)
                                 ++ ">()")]).
    { unfold fieldDeclaration.
      rewrite (generateFieldDeclaration_unfold camelCase rootTypeNameFromGraphQLType field).
      now rewrite propertyDeclaration_at_list. }
    split; [exact E|]. rewrite E. intros H. apply in_app_or in H.
    destruct H as [H|[H|[]]].
    + apply In_fieldComment in H. destruct H as [line H]. discriminate H.
    + discriminate H.
  - intros context before key type after fb fk field fa n Hm He Hf Hl Hi Hn.
    assert (P : program context =
                fileHeader ++
                namespaceDeclaration (namespace (options context))
                  (flat_map typeDeclaration (Object_values before)
                   ++ (classOpening type
                       ++ flat_map fieldDeclaration (Object_values fb)
                       ++ (fieldComment field
                           ++ [PrintOnNewline ("UNCAUGHT SCALAR " ++ n)])
                       ++ flat_map fieldDeclaration (Object_values fa)
                       ++ classClosing)
                   ++ flat_map typeDeclaration (Object_values after))).
    { rewrite program_unfold, Hm. unfold Object_values.
      rewrite map_app, flat_map_app. cbn [map flat_map snd].
      rewrite (typeDeclaration_emitting type He), Hf.
      unfold Object_values. rewrite map_app, flat_map_app. cbn [map flat_map snd].
      rewrite (A field n Hl Hi Hn). rewrite <- !app_assoc. reflexivity. }
    split; [exact P|].
    apply T. apply (In_program context type field).
    + rewrite Hm. unfold Object_values. rewrite map_app. apply in_or_app.
      right. now left.
    + exact He.
    + rewrite Hf. unfold Object_values. rewrite map_app. apply in_or_app.
      right. now left.
    + rewrite (A field n Hl Hi Hn). apply in_or_app. right. now left.
  - intros context. split; [apply classHeaders_program|].
    split; [apply propertyDeclarationLines_program|].
    split; [apply In_program | apply T].
Qed.

End Driver.

(** C4 as stated fails: the object type whose two fields are of a union and
    of an interface type gets a class with no property declaration. *)
Lemma C4_counterexample :
  ~ (forall (camelCase : string -> string)
            (rootTypeNameFromGraphQLType : GraphQLType -> string)
            (type : GraphQLNamedType),
        emitsClass type = true ->
        propertyDeclarationLines
          (realmTypeDeclarationType camelCase rootTypeNameFromGraphQLType type) =
        List.length (Object_values (getFields type))).
Proof.
  intros H. specialize (H asWritten innermostName Org eq_refl).
  vm_compute in H. discriminate H.
Qed.

Lemma C4_witness :
  isObjectType (asType User) = true
  /\ startsWith (name_of (asType User)) "__" = false
  /\ realmTypeDeclarationType asWritten innermostName User =
     [PrintNewlineIfNeeded; PrintOnNewline "public final class User";
      Print ": Object"; PushScope "User"; Print " {"; IndentIn;
      PrintOnNewline ("dynamic var id = " ++ dquote ++ dquote);
      PrintOnNewline "override public static func primaryKey() -> String?";
      Print " {"; IndentIn;
      PrintOnNewline ("return " ++ dquote ++ "id" ++ dquote);
      IndentOut; PrintOnNewline "}";
      PrintOnNewline "UNCAUGHT SCALAR Date";
      PrintOnNewline "/// The full name";
      PrintOnNewline "dynamic var name: String? = nil";
      PrintOnNewline "let tags = List<String>()";
      IndentOut; PrintOnNewline "}"; PopScope]
  /\ propertyDeclarationLines (realmTypeDeclarationType asWritten innermostName User) = 3
  /\ realmTypeDeclarationType asWritten innermostName introspectionType = [].
Proof.
  pose proof (proj1 (C4_class_per_output_object_type asWritten innermostName)) as H.
  split; [reflexivity|]. split; [reflexivity|]. split; [|split].
  - exact (proj1 (proj1 (proj2 (H User)) eq_refl eq_refl)).
  - exact (proj2 (proj1 (proj2 (H User)) eq_refl eq_refl)).
  - exact (proj2 (proj2 (H introspectionType)) (or_intror eq_refl)).
Defined.

(** C6 as stated fails: the list of a scalar that is not built in prints
    the collection form and no marker. *)
Lemma C6_counterexample :
  ~ (forall (camelCase : string -> string)
            (rootTypeNameFromGraphQLType : GraphQLType -> string)
            (field : GraphQLField) (n : string),
        innermost (GraphQL.type field) = GraphQLScalarType n ->
        ~ In n builtInScalarNames ->
        In (PrintOnNewline ("UNCAUGHT SCALAR " ++ n))
           (generateFieldDeclaration camelCase rootTypeNameFromGraphQLType field "")).
Proof.
  intros H.
  specialize (H asWritten innermostName datesField "Date"%string eq_refl not_built_in_Date).
  vm_compute in H. destruct H as [H|[]]. discriminate H.
Qed.

Lemma C6_witness :
  wrappedInList (GraphQL.type sinceField) = false
  /\ innermost (GraphQL.type sinceField) = GraphQLScalarType "Date"
  /\ ~ In "Date"%string builtInScalarNames
  /\ generateFieldDeclaration asWritten innermostName sinceField "" =
     [PrintOnNewline "UNCAUGHT SCALAR Date"]
  /\ generateFieldDeclaration asWritten innermostName datesField "" =
     [PrintOnNewline "let dates = List<Date>()"]
  /\ (exists textBefore textAfter : string,
        generateSource asWritten innermostName
          (mkContext userSchema (withNamespace (Some "API"%string))) =
        (textBefore ++ "UNCAUGHT SCALAR Date" ++ textAfter)%string).
Proof.
  pose proof (C6_uncaught_scalar_marker asWritten innermostName) as [A [B [C _]]].
  split; [reflexivity|]. split; [reflexivity|]. split; [exact not_built_in_Date|].
  split; [|split].
  - exact (A sinceField "Date"%string eq_refl eq_refl not_built_in_Date).
  - exact (proj1 (B datesField "Date"%string eq_refl eq_refl)).
  - exact (proj2 (C (mkContext userSchema (withNamespace (Some "API"%string)))
                    [] "User"%string User
                    [("Date"%string, mkNamedType (GraphQLScalarType "Date") []);
                     ("__Type"%string, introspectionType)]
                    [("id"%string, idField)] "since"%string sinceField
                    [("name"%string, nameField); ("tags"%string, tagsField)]
                    "Date"%string eq_refl eq_refl eq_refl eq_refl eq_refl
                    not_built_in_Date)).
Defined.
